(** * ChatRealTime server: a model of [server/server.js]

    The server keeps two durable stores on disk (one JSON file per chat
    room, one JSON file holding every class request) and one in-memory
    registry of live sockets per room.  Every handler of the file is
    synchronous: it reads a file, changes the parsed value and writes it
    back before it returns.  A handler is therefore modelled as a function
    from the state it finds to its answer and the state it leaves, or to
    the exception it throws.

    What is taken from the environment is an argument of the handler that
    reads it: the clock ([Date.now()], [new Date().toISOString()]) and the
    random draw ([Math.random().toString(36)]).

    [JSON.parse (JSON.stringify v)] is the identity on the values below, so
    a file is modelled by the value it holds.  The chat files are named by
    [path.join] from the room a request names: the chat store is a map
    from the paths [path.join] gives to what the files hold. *)

From stdpp Require Import base gmap strings list pretty.
From Stdlib Require Import Ascii.

Local Open Scope string_scope.
Local Open Scope list_scope.
Local Open Scope nat_scope.

(** ** JavaScript values carried by requests and files *)

(** A JSON value as the handlers see it.  No handler looks inside an array
    or an object that a caller put in a field, so such a value is kept as
    the text JavaScript's string coercion gives it.  A number is kept the
    same way, as the text JavaScript prints for it (["5"], ["1e+21"]): two
    numbers are equal exactly when they print alike.  [undefined] is the
    absence of a value: [option json]. *)
Inductive json : Type :=
  | JNull
  | JBool (b : bool)
  | JNum (text : string)
  | JStr (s : string)
  | JCompound (text : string).

(** [a === b].  Arrays and objects are compared by reference, and the two
    sides of every comparison in the file come from different places (a
    parsed file and a request), so two compound values are never equal. *)
Definition strict_eq (a b : option json) : bool :=
  match a, b with
  | None, None => true
  | Some JNull, Some JNull => true
  | Some (JBool x), Some (JBool y) => bool_decide (x = y)
  | Some (JNum x), Some (JNum y) => bool_decide (x = y)
  | Some (JStr x), Some (JStr y) => bool_decide (x = y)
  | _, _ => false
  end.

(** [a !== b] *)
Definition strict_neq (a b : option json) : bool := negb (strict_eq a b).

(** The text a template literal [`${v}`] gives. *)
Definition template (v : option json) : string :=
  match v with
  | None => "undefined"
  | Some JNull => "null"
  | Some (JBool true) => "true"
  | Some (JBool false) => "false"
  | Some (JNum text) => text
  | Some (JStr s) => s
  | Some (JCompound t) => t
  end.

(** A plain object with caller-chosen fields: [o !! "f"] is [o.f]. *)
Abbreviation object := (gmap string json).

(** The properties every plain object inherits from [Object.prototype]. *)
Definition object_prototype_keys : list string :=
  [ "constructor"; "__defineGetter__"; "__defineSetter__"; "hasOwnProperty";
    "__lookupGetter__"; "__lookupSetter__"; "isPrototypeOf";
    "propertyIsEnumerable"; "toString"; "valueOf"; "__proto__";
    "toLocaleString" ].

(** [obj[key]] on an object used as a table: an own property, else a
    property found on the prototype chain, else [undefined]. *)
Inductive property (A : Type) : Type :=
  | Own (a : A)
  | Inherited
  | Undefined.
Arguments Own {A} a.
Arguments Inherited {A}.
Arguments Undefined {A}.

Definition js_get {A : Type} (obj : gmap string A) (key : string) : property A :=
  match obj !! key with
  | Some a => Own a
  | None =>
      if bool_decide (key ∈ object_prototype_keys) then Inherited else Undefined
  end.

(** The first character of a decimal numeral: a digit, or the sign. *)
Definition numeral_start (c : Ascii.ascii) : bool :=
  bool_decide (c ∈ ["0"; "1"; "2"; "3"; "4"; "5"; "6"; "7"; "8"; "9"; "-"]%char).

Definition starts_numeral (s : string) : bool :=
  match s with
  | String c _ => numeral_start c
  | EmptyString => false
  end.

(** ** HTTP responses *)

Inductive response (A : Type) : Type :=
  | Ok200 (body : A)
  | Created201 (body : A)
  | BadRequest400
  | Forbidden403
  | NotFound404
  | ServerError500.
Arguments Ok200 {A} body.
Arguments Created201 {A} body.
Arguments BadRequest400 {A}.
Arguments Forbidden403 {A}.
Arguments NotFound404 {A}.
Arguments ServerError500 {A}.

(** ** What a handler leaves: its result, or the exception it threw *)

Inductive result (A : Type) : Type :=
  | Done (a : A)
  | Thrown.
Arguments Done {A} a.
Arguments Thrown {A}.

(** ** Chat storage *)

Module Chat.

(** A message is the object the client sent, with the fields the client
    chose ([room], [author], [message], [time], ...). *)
Abbreviation message := (gmap string json).

(** An absolute path without ["."] or [".."]: the names from the root down. *)
Abbreviation path := (list string).

(** What is at a path: a file that holds a JSON array of messages, a file
    that holds another JSON value (kept as its text), a file that holds no
    JSON, or a directory. *)
Inductive entry : Type :=
  | Log (messages : list (gmap string json))
  | NotArray (text : string)
  | NotJson
  | Directory.

(** The disk as the chat handlers meet it: the directory of [server.js],
    what is at the paths that exist, and whether the system lets the
    process create a file at a path that does not (its directory exists,
    its name is one the system takes).  The server makes no directory once
    it runs, so the last does not change.  Paths are those of a POSIX
    system, names told apart byte by byte; a file that exists is one the
    process may read and rewrite. *)
Record disk : Type := mkDisk {
  dirname : list string;
  entries : gmap (list string) entry;
  creatable : list string → bool;
}.

(** [s.split("/")] *)
Fixpoint split_slash (s : string) : list string :=
  match s with
  | EmptyString => [EmptyString]
  | String c rest =>
      if Ascii.eqb c "/" then EmptyString :: split_slash rest
      else
        match split_slash rest with
        | name :: names => String c name :: names
        | [] => [String c EmptyString]
        end
  end.

(** The directory a path is in; the root is its own. *)
Definition parent (p : path) : path := take (length p - 1) p.

(** One name of a relative path, followed from [p] the way
    [path.normalize] does: an empty name and ["."] stay, [".."] goes up. *)
Definition enter (p : path) (name : string) : path :=
  if bool_decide (name = "" ∨ name = ".") then p
  else if bool_decide (name = "..") then parent p
  else p ++ [name].

(** [path.join(base, rel)] for an absolute normalised [base]. *)
Definition path_join (base : path) (rel : string) : path :=
  foldl enter base (split_slash rel).

(** [path.join(__dirname, "chat_storage")] *)
Definition CHAT_STORAGE_PATH (d : disk) : path :=
  path_join (dirname d) "chat_storage".

(** [path.join(CHAT_STORAGE_PATH, `${room}.json`)] *)
Definition getChatFilePath (room : option json) (d : disk) : path :=
  path_join (CHAT_STORAGE_PATH d) (template room +:+ ".json").

(** What [JSON.parse] made of a file. *)
Inductive parsed : Type :=
  | Messages (history : list (gmap string json))
  | Value (text : string).

(** [loadChatHistory]: [readFileSync] throws on a directory and
    [JSON.parse] on a file that holds no JSON. *)
Definition loadChatHistory (room : option json) (d : disk) : result parsed :=
  match entries d !! getChatFilePath room d with
  | None => Done (Messages [])
  | Some (Log messages) => Done (Messages messages)
  | Some (NotArray text) => Done (Value text)
  | Some NotJson => Thrown
  | Some Directory => Thrown
  end.

(** The disk with this log in the file at a path. *)
Definition write (filePath : path) (messages : list message) (d : disk) : disk :=
  {| dirname := dirname d;
     entries := <[filePath := Log messages]> (entries d);
     creatable := creatable d |}.

(** [fs.writeFileSync(filePath, JSON.stringify(messages), "utf8")]: a file
    is rewritten, a directory is not, and a file that does not exist is
    created where the system lets it be. *)
Definition writeFileSync (filePath : path) (messages : list message)
    (d : disk) : result disk :=
  match entries d !! filePath with
  | Some Directory => Thrown
  | Some _ => Done (write filePath messages d)
  | None =>
      if creatable d filePath then Done (write filePath messages d)
      else Thrown
  end.

(** A file a message can be appended to: it holds a log, or it does not
    exist and can be created. *)
Definition appendable (filePath : path) (d : disk) : bool :=
  match entries d !! filePath with
  | Some (Log _) => true
  | Some _ => false
  | None => creatable d filePath
  end.

Definition saveChatHistory (room : option json) (messages : list message)
    (d : disk) : result disk :=
  writeFileSync (getChatFilePath room d) messages d.

(** [saveChatMessage]: [history.push] throws when the file held a value
    that is not an array. *)
Definition saveChatMessage (room : option json) (msg : message)
    (d : disk) : result disk :=
  match loadChatHistory room d with
  | Done (Messages history) =>
      writeFileSync (getChatFilePath room d) (history ++ [msg]) d
  | Done (Value _) => Thrown
  | Thrown => Thrown
  end.


(** The callback of [history.filter] in the delete handler. *)
Definition keep (messageId : string) (author : option json) (msg : message) : bool :=
  strict_neq (msg !! "id") (Some (JStr messageId))
  || strict_neq (msg !! "author") author.

(** A message with this id sent by this author. *)
Definition matches (messageId : string) (author : option json) (msg : message) : bool :=
  strict_eq (msg !! "id") (Some (JStr messageId))
  && strict_eq (msg !! "author") author.

(** [DELETE /api/chat/:room/:messageId?author=...]; [history.filter]
    throws when the file held a value that is not an array, and an
    exception is answered with status 500. *)
Definition deleteMessage (room messageId : string) (author : option json)
    (d : disk) : response unit * disk :=
  match loadChatHistory (Some (JStr room)) d with
  | Done (Messages history) =>
      let updatedHistory := List.filter (keep messageId author) history in
      if (length history =? length updatedHistory)%nat
      then (Forbidden403, d)
      else
        match saveChatHistory (Some (JStr room)) updatedHistory d with
        | Done d' => (Ok200 (), d')
        | Thrown => (ServerError500, d)
        end
  | Done (Value _) => (ServerError500, d)
  | Thrown => (ServerError500, d)
  end.

(** [Date.now().toString() + Math.random().toString(36).substr(2, 5)];
    [r36] is the text of [Math.random().toString(36)]. *)
Definition message_id (now : Z) (r36 : string) : string :=
  pretty now +:+ String.substring 2 5 r36.

(** [socket.on("send_message", ...)]: the acknowledged message and the
    disk left behind; an exception of [saveChatMessage] is not caught. *)
Definition send_message (data : message) (now : Z) (r36 : string)
    (d : disk) : result (message * disk) :=
  let data := <["id" := JStr (message_id now r36)]> data in
  match saveChatMessage (data !! "room") data d with
  | Done d' => Done (data, d')
  | Thrown => Thrown
  end.

(** The handlers of a sequence of [send_message] events, one after the
    other; an exception ends the run. *)
Fixpoint send_all (events : list (message * Z * string)) (d : disk)
    : result disk :=
  match events with
  | [] => Done d
  | (data, now, r36) :: events =>
      match send_message data now r36 d with
      | Done (_, d') => send_all events d'
      | Thrown => Thrown
      end
  end.

(** The message an event leaves in the log. *)
Definition acknowledged (e : message * Z * string) : message :=
  <["id" := JStr (message_id e.1.2 e.2)]> e.1.1.

(** The events of a sequence whose room leads to the file at a path. *)
Definition sent_to (p : path) (d : disk)
    (events : list (message * Z * string)) : list (message * Z * string) :=
  List.filter (λ e, bool_decide (getChatFilePath (e.1.1 !! "room") d = p))
    events.

(** What the specification words ask of a deletion: drop the first
    message that matches, keep the rest. *)
Fixpoint remove_first (messageId : string) (author : option json)
    (log : list message) : list message :=
  match log with
  | [] => []
  | msg :: rest =>
      if matches messageId author msg then rest
      else msg :: remove_first messageId author rest
  end.

End Chat.

(** ** Class requests *)

Module Requests.

Abbreviation participant := (gmap string json).

(** A stored class request: the fields the server assigns, and [fields],
    the rest of the request body ([room], [creatorName],
    [creatorStudentId], [creatorClass] and whatever else the caller sent).
    [r.creatorName] is [fields r !! "creatorName"].  A request body is a
    JSON object, as the data model has it. *)
Record ClassRequest : Type := mkClassRequest {
  id : string;
  participants : list participant;
  participantCount : nat;
  createdAt : string;
  fields : gmap string json;
}.

(** [class_requests.json]: an object keyed by request id. *)
Abbreviation table := (gmap string ClassRequest).

Definition loadClassRequests (file : table) : table := file.
Definition saveClassRequests (requests : table) : table := requests.

(** [o.k = v] where [v] may be [undefined]; an undefined property is not
    written to the file. *)
Definition set_field (k : string) (v : option json) (o : object) : object :=
  match v with
  | Some x => <[k := x]> o
  | None => delete k o
  end.

(** The object literal that seeds [participants]. *)
Definition creator_participant (requestData : object) : participant :=
  set_field "class" (requestData !! "creatorClass")
    (set_field "fullName" (requestData !! "creatorName")
       (set_field "studentId" (requestData !! "creatorStudentId") ∅)).

(** The four properties the create handler assigns replace what the body
    held under those names. *)
Definition assigned_keys : list string :=
  [ "id"; "participants"; "participantCount"; "createdAt" ].

Definition body_fields (requestData : object) : object :=
  foldr delete requestData assigned_keys.

(** [POST /api/class-request]; [now] is [Date.now()] and [iso] is
    [new Date().toISOString()]. *)
Definition create (requestData : object) (now : Z) (iso : string)
    (file : table) : response ClassRequest * table :=
  let requests := loadClassRequests file in
  let requestId := pretty now in
  let record :=
    {| id := requestId;
       participants := [creator_participant requestData];
       participantCount := 1;
       createdAt := iso;
       fields := body_fields requestData |} in
  (Created201 record, saveClassRequests (<[requestId := record]> requests)).

(** [DELETE /api/class-request/:id?creator=...].  An inherited property is
    truthy and has no [creatorName]; [delete] of a property the object does
    not own changes nothing. *)
Definition delete_request (key : string) (creator : option json)
    (file : table) : response unit * table :=
  let requests := loadClassRequests file in
  match js_get requests key with
  | Undefined => (NotFound404, file)
  | Own record =>
      if strict_neq (fields record !! "creatorName") creator
      then (Forbidden403, file)
      else (Ok200 (), saveClassRequests (delete key requests))
  | Inherited =>
      if strict_neq None creator
      then (Forbidden403, file)
      else (Ok200 (), saveClassRequests requests)
  end.

(** [p => p.studentId === participantData.studentId] *)
Definition same_student (participantData p : participant) : bool :=
  strict_eq (p !! "studentId") (participantData !! "studentId").

(** [participants.push(participantData)] followed by
    [participantCount = participants.length]. *)
Definition push_participant (participantData : participant)
    (record : ClassRequest) : ClassRequest :=
  let joined := participants record ++ [participantData] in
  {| id := id record;
     participants := joined;
     participantCount := length joined;
     createdAt := createdAt record;
     fields := fields record |}.

(** [POST /api/class-request/:id/join].  An inherited property has no
    [participants]: calling [some] on [undefined] throws, which the HTTP
    layer answers with status 500 before anything is saved. *)
Definition join (key : string) (participantData : participant)
    (file : table) : response ClassRequest * table :=
  let requests := loadClassRequests file in
  match js_get requests key with
  | Undefined => (NotFound404, file)
  | Inherited => (ServerError500, file)
  | Own record =>
      let alreadyJoined :=
        existsb (same_student participantData) (participants record) in
      if alreadyJoined then (BadRequest400, file)
      else
        let record := push_participant participantData record in
        (Ok200 record, saveClassRequests (<[key := record]> requests))
  end.

(** The three operations that change the table, and a run of them. *)
Inductive op : Type :=
  | Create (requestData : object) (now : Z) (iso : string)
  | Join (key : string) (participantData : participant)
  | Delete (key : string) (creator : option json).

Definition apply (o : op) (file : table) : table :=
  match o with
  | Create requestData now iso => (create requestData now iso file).2
  | Join key participantData => (join key participantData file).2
  | Delete key creator => (delete_request key creator file).2
  end.

Definition run (ops : list op) (file : table) : table :=
  foldl (λ t o, apply o t) file ops.

(** [GET /api/class-requests/:room]: the stored requests whose [room] is
    the room asked for.  [Object.values] lists them in the order of the
    file's keys; the table does not keep that order, and neither does this
    list: it says which requests are in the answer. *)
Definition listByRoom (room : string) (file : table) : list ClassRequest :=
  List.filter (λ req, strict_eq (fields req !! "room") (Some (JStr room)))
    ((map_to_list (loadClassRequests file)).*2).

(** [GET /api/class-request/:id/participants].  An inherited property has
    no [participants], and [res.json(undefined)] answers with status 200
    and no body. *)
Definition participantsOf (key : string) (file : table)
    : response (option (list participant)) :=
  match js_get (loadClassRequests file) key with
  | Undefined => NotFound404
  | Own record => Ok200 (Some (participants record))
  | Inherited => Ok200 None
  end.

(** No two entries of a participant list have strictly equal student ids. *)
Definition distinct_students (ps : list participant) : Prop :=
  ∀ i j p q, i ≠ j → ps !! i = Some p → ps !! j = Some q →
    strict_eq (p !! "studentId") (q !! "studentId") = false.

(** What holds of every stored record, under the key it is stored at. *)
Definition record_ok (key : string) (record : ClassRequest) : Prop :=
  id record = key
  ∧ participantCount record = length (participants record)
  ∧ head (participants record) = Some (creator_participant (fields record))
  ∧ distinct_students (participants record).

(** What [express.json()] hands to a handler: a JSON object, or a JSON
    array. *)
Inductive body : Type :=
  | ObjectBody (o : gmap string json)
  | ArrayBody (elements : list json).

(** What the file holds under a key: a request, or the elements of an
    array.  The create handler assigns [id], [participants],
    [participantCount] and [createdAt] to an array as it does to an
    object, and [JSON.stringify] writes the elements of an array and
    none of its named properties. *)
Inductive stored : Type :=
  | StoredRequest (record : ClassRequest)
  | StoredArray (elements : list json).

(** [POST /api/class-request] for either kind of body. *)
Definition create_body (requestData : body) (now : Z) (iso : string)
    (file : gmap string stored) : response stored * gmap string stored :=
  let requestId := pretty now in
  let value :=
    match requestData with
    | ObjectBody o =>
        StoredRequest
          {| id := requestId;
             participants := [creator_participant o];
             participantCount := 1;
             createdAt := iso;
             fields := body_fields o |}
    | ArrayBody elements => StoredArray elements
    end in
  (Created201 value, <[requestId := value]> file).

(** [value.id], [value.participants] and [value.participantCount] of what
    the file holds; an array read back from the file has none of them. *)
Definition stored_id (value : stored) : option string :=
  match value with
  | StoredRequest record => Some (id record)
  | StoredArray _ => None
  end.



End Requests.

(** ** The registry of live sockets *)

Module Registry.

(** A handler either returns or throws a [TypeError]; either way it leaves
    a state behind. *)
Inductive outcome (A : Type) : Type :=
  | Returned (a : A)
  | Threw (a : A).
Arguments Returned {A} a.
Arguments Threw {A} a.

(** [activeRooms] is the object of the file, [currentRoom] holds the
    [currentRoom] property of each connected socket, and [adapter] is the
    room membership socket.io keeps for [io.to(room)]: [socket.join] adds
    the socket to a room, and a socket that disconnects leaves all of its
    rooms. *)
Record registry : Type := mkRegistry {
  activeRooms : gmap string (gset string);
  currentRoom : gmap string string;
  adapter : gmap string (gset string);
}.

Definition empty : registry :=
  {| activeRooms := ∅; currentRoom := ∅; adapter := ∅ |}.

Definition members (rooms : gmap string (gset string)) (room : string) : gset string :=
  match rooms !! room with
  | Some s => s
  | None => ∅
  end.

(** [socket.on("join_room", ...)] for the socket [sid]. *)
Definition join_room (sid room : string) (st : registry) : outcome registry :=
  let adapter' := <[room := {[sid]} ∪ members (adapter st) room]> (adapter st) in
  let currentRoom' := <[sid := room]> (currentRoom st) in
  match js_get (activeRooms st) room with
  | Undefined =>
      Returned {| activeRooms := <[room := {[sid]}]> (activeRooms st);
                  currentRoom := currentRoom';
                  adapter := adapter' |}
  | Own s =>
      Returned {| activeRooms := <[room := {[sid]} ∪ s]> (activeRooms st);
                  currentRoom := currentRoom';
                  adapter := adapter' |}
  | Inherited =>
      Threw {| activeRooms := activeRooms st;
               currentRoom := currentRoom';
               adapter := adapter' |}
  end.

(** A string is truthy unless it is empty. *)
Definition truthy (s : string) : bool := negb (bool_decide (s = "")).

(** [socket.on("disconnect", ...)] for the socket [sid], after socket.io
    took the socket out of its rooms.  The socket object, and with it its
    [currentRoom], is gone afterwards. *)
Definition disconnect (sid : string) (st : registry) : outcome registry :=
  let adapter' := (λ s : gset string, s ∖ {[sid]}) <$> adapter st in
  let currentRoom' := delete sid (currentRoom st) in
  let left rooms :=
    {| activeRooms := rooms; currentRoom := currentRoom'; adapter := adapter' |} in
  match currentRoom st !! sid with
  | None => Returned (left (activeRooms st))
  | Some room =>
      if truthy room then
        match js_get (activeRooms st) room with
        | Undefined => Returned (left (activeRooms st))
        | Inherited => Threw (left (activeRooms st))
        | Own s =>
            let s := s ∖ {[sid]} in
            if (size s =? 0)%nat
            then Returned (left (delete room (activeRooms st)))
            else Returned (left (<[room := s]> (activeRooms st)))
        end
      else Returned (left (activeRooms st))
  end.

(** The state a handler leaves behind. *)
Definition state_of {A : Type} (o : outcome A) : A :=
  match o with
  | Returned a => a
  | Threw a => a
  end.

(** The two events of a socket, and a run of them.  An uncaught
    [TypeError] ends the run. *)
Inductive event : Type :=
  | JoinRoom (sid room : string)
  | Disconnect (sid : string).

Definition handle (e : event) (st : registry) : outcome registry :=
  match e with
  | JoinRoom sid room => join_room sid room st
  | Disconnect sid => disconnect sid st
  end.

Fixpoint run (events : list event) (st : registry) : outcome registry :=
  match events with
  | [] => Returned st
  | e :: events =>
      match handle e st with
      | Returned st => run events st
      | Threw st => Threw st
      end
  end.

(** What the handlers keep true of the registry: a room that is stored has
    a member and is not named like an inherited property, and a socket is a
    member of its current room. *)
Definition kept_well (st : registry) : Prop :=
  (∀ room s, activeRooms st !! room = Some s →
     s ≠ ∅ ∧ room ∉ object_prototype_keys)
  ∧ (∀ sid room, currentRoom st !! sid = Some room →
       room ∉ object_prototype_keys → sid ∈ members (activeRooms st) room).

End Registry.

(** ** Sample requests

    The requests and the disk of the scenarios the properties below are
    evaluated on. *)

Module Sample.

(** One millisecond of the clock and one random draw:
    [(0.5).toString(36)] is ["0.i"]. *)
Definition t0 : Z := 1700000000000%Z.
Definition half : string := "0.i".

Definition alice_hi : gmap string json :=
  {[ "room" := JStr "A"; "author" := JStr "alice"; "message" := JStr "hi" ]}.

Definition alice_again : gmap string json :=
  {[ "room" := JStr "A"; "author" := JStr "alice"; "message" := JStr "again" ]}.

Definition bob_request : gmap string json :=
  {[ "room" := JStr "A"; "creatorName" := JStr "bob";
     "creatorStudentId" := JStr "s1"; "creatorClass" := JStr "10A" ]}.

Definition carol_request : gmap string json :=
  {[ "room" := JStr "A"; "creatorName" := JStr "carol";
     "creatorStudentId" := JStr "s2"; "creatorClass" := JStr "10B" ]}.

Definition dave : gmap string json :=
  {[ "studentId" := JStr "s3"; "fullName" := JStr "dave"; "class" := JStr "10A" ]}.

Definition iso0 : string := "2023-11-14T22:13:20.000Z".

(** bob creates a request, dave joins it. *)
Definition bob_then_dave : list Requests.op :=
  [ Requests.Create bob_request t0 iso0; Requests.Join "1700000000000" dave ].

Definition bob : gmap string json :=
  {[ "studentId" := JStr "s1"; "fullName" := JStr "bob"; "class" := JStr "10A" ]}.

Definition bob_record : Requests.ClassRequest :=
  {| Requests.id := "1700000000000";
     Requests.participants := [bob; dave];
     Requests.participantCount := 2;
     Requests.createdAt := iso0;
     Requests.fields := bob_request |}.

Definition carol_record : Requests.ClassRequest :=
  {| Requests.id := "1700000000000";
     Requests.participants := [Requests.creator_participant carol_request];
     Requests.participantCount := 1;
     Requests.createdAt := iso0;
     Requests.fields := carol_request |}.

(** A server that has just started, in [/srv/app/server]: its directory
    holds [class_requests.json], an empty object, and the empty directory
    [chat_storage]; a file can be created in either. *)
Definition server : list string := ["srv"; "app"; "server"].

Definition directories : list (list string) :=
  [ []; ["srv"]; ["srv"; "app"]; server; server ++ ["chat_storage"] ].

Definition fresh : Chat.disk :=
  {| Chat.dirname := server;
     Chat.entries :=
       {[ server ++ ["class_requests.json"] := Chat.NotArray "{}";
          server ++ ["chat_storage"] := Chat.Directory ]};
     Chat.creatable :=
       λ p, bool_decide (p ≠ [] ∧ Chat.parent p ∈ directories) |}.

(** The file of room ["A"]. *)
Definition room_A : list string := server ++ ["chat_storage"; "A.json"].

Definition carol_hi : gmap string json :=
  {[ "room" := JStr "A"; "author" := JStr "carol"; "message" := JStr "hi" ]}.

(** Three stored messages of room ["A"], and the disk that holds them. *)
Definition m1 : gmap string json := <["id" := JStr "m1"]> alice_hi.
Definition m2 : gmap string json := <["id" := JStr "m2"]> carol_hi.
Definition m3 : gmap string json := <["id" := JStr "m3"]> alice_again.

Definition chatting : Chat.disk := Chat.write room_A [m1; m2; m3] fresh.

(** Two messages sent in one millisecond with one random draw. *)
Definition twice : list (gmap string json * Z * string) :=
  [ (alice_hi, t0, half); (alice_again, t0, half) ].

End Sample.

(** * Properties *)

(** ** Values *)

Lemma strict_eq_sym a b : strict_eq a b = strict_eq b a.
Proof.
  destruct a as [[]|], b as [[]|]; simpl; try reflexivity;
    apply bool_decide_ext; split; congruence.
Qed.

Lemma strict_eq_str a s :
  strict_eq a (Some (JStr s)) = true ↔ a = Some (JStr s).
Proof.
  destruct a as [[]|]; simpl; try (split; [discriminate | congruence]).
  rewrite bool_decide_eq_true. split; congruence.
Qed.

Lemma strict_eq_true_eq a b : strict_eq a b = true → a = b.
Proof.
  destruct a as [[]|], b as [[]|]; simpl; try discriminate; try reflexivity;
    rewrite bool_decide_eq_true; congruence.
Qed.

(** ** Chat storage *)

Section ChatFacts.
Import Chat.

Implicit Types (d : disk) (msg data : message) (history log : list message)
  (p : path).

Lemma keep_matches mid author msg :
  keep mid author msg = negb (matches mid author msg).
Proof. unfold keep, matches, strict_neq. by rewrite negb_andb. Qed.

Lemma filter_length_le {A} (f : A → bool) (l : list A) :
  length (List.filter f l) ≤ length l.
Proof. induction l as [|x l IH]; simpl; [lia|]. destruct (f x); simpl; lia. Qed.

(** Filtering keeps the length exactly when it drops nothing. *)
Lemma filter_length_same {A} (f : A → bool) (l : list A) :
  length (List.filter f l) = length l ↔ ∀ x, x ∈ l → f x = true.
Proof.
  induction l as [|x l IH]; simpl.
  - split; [intros _ y Hy; inversion Hy | done].
  - destruct (f x) eqn:Hx; simpl.
    + split.
      * intros Hlen y Hy. apply elem_of_cons in Hy as [->|Hy]; [done|].
        apply IH; [lia | done].
      * intros Hall. f_equal. apply IH. intros y Hy. apply Hall. by right.
    + split.
      * intros Hlen. pose proof (filter_length_le f l). lia.
      * intros Hall. specialize (Hall x (list_elem_of_here _ _)). congruence.
Qed.

Lemma filter_all_kept {A} (f : A → bool) (l : list A) :
  (∀ x, x ∈ l → f x = true) → List.filter f l = l.
Proof.
  induction l as [|x l IH]; intros Hall; simpl; [done|].
  rewrite (Hall x (list_elem_of_here _ _)). f_equal.
  apply IH. intros y Hy. apply Hall. by right.
Qed.

Lemma filter_sublist {A} (f : A → bool) (l : list A) :
  List.filter f l `sublist_of` l.
Proof.
  induction l as [|x l IH]; simpl; [done|]. destruct (f x); by constructor.
Qed.

Lemma filter_keep_matches mid author history :
  List.filter (keep mid author) history
  = List.filter (λ msg, negb (matches mid author msg)) history.
Proof. apply filter_ext. intros. apply keep_matches. Qed.

(** *** Files *)

(** The file of a room depends on the directory of the server alone. *)
Lemma getChatFilePath_write (room : option json) p log d :
  getChatFilePath room (write p log d) = getChatFilePath room d.
Proof. done. Qed.

(** A room given as a string is the room a field holding that string names. *)
Lemma getChatFilePath_template (room : option json) d :
  getChatFilePath (Some (JStr (template room))) d = getChatFilePath room d.
Proof. done. Qed.

Lemma loadChatHistory_write_eq (room room' : option json) log d :
  getChatFilePath room' d = getChatFilePath room d →
  loadChatHistory room' (write (getChatFilePath room d) log d)
  = Done (Messages log).
Proof.
  intros Hsame. unfold loadChatHistory. rewrite getChatFilePath_write, Hsame.
  cbn [write entries]. by rewrite lookup_insert_eq.
Qed.

Lemma loadChatHistory_write_ne (room' : option json) p log d :
  getChatFilePath room' d ≠ p →
  loadChatHistory room' (write p log d) = loadChatHistory room' d.
Proof.
  intros Hne. unfold loadChatHistory. rewrite getChatFilePath_write.
  cbn [write entries]. by rewrite lookup_insert_ne.
Qed.

(** A log that was read is what the file holds, or the file does not
    exist and the log is empty. *)
Lemma loadChatHistory_Messages (room : option json) history d :
  loadChatHistory room d = Done (Messages history) →
  entries d !! getChatFilePath room d = Some (Log history)
  ∨ (entries d !! getChatFilePath room d = None ∧ history = []).
Proof.
  unfold loadChatHistory.
  destruct (entries d !! getChatFilePath room d) as [[]|]; intros [=]; subst;
    [by left | by right].
Qed.

Lemma writeFileSync_log p log history d :
  entries d !! p = Some (Log history) →
  writeFileSync p log d = Done (write p log d).
Proof. intros H. unfold writeFileSync. by rewrite H. Qed.

Lemma writeFileSync_appendable p log d :
  appendable p d = true → writeFileSync p log d = Done (write p log d).
Proof.
  unfold appendable, writeFileSync.
  destruct (entries d !! p) as [[]|]; try done. by intros ->.
Qed.

Lemma writeFileSync_Done p log d d' :
  writeFileSync p log d = Done d' → d' = write p log d.
Proof.
  unfold writeFileSync. destruct (entries d !! p) as [[]|];
    [| | | done |]; try (by intros [= <-]).
  destruct (creatable d p); [by intros [= <-] | done].
Qed.

(** Room names that lead to one file, and one that leads out of the
    storage directory. *)
Example getChatFilePath_aliases :
  getChatFilePath (Some (JStr "A")) Sample.fresh = Sample.room_A
  ∧ getChatFilePath (Some (JStr "./A")) Sample.fresh = Sample.room_A
  ∧ getChatFilePath (Some (JStr "x/../A")) Sample.fresh = Sample.room_A
  ∧ getChatFilePath (Some (JNum "1e+21")) Sample.fresh
    = Sample.server ++ ["chat_storage"; "1e+21.json"]
  ∧ getChatFilePath (Some (JStr "../class_requests")) Sample.fresh
    = Sample.server ++ ["class_requests.json"].
Proof. repeat split; vm_compute; reflexivity. Qed.

(** *** Deleting a message *)

(** The answers of the delete handler. *)
Lemma deleteMessage_cases room mid author d :
  match loadChatHistory (Some (JStr room)) d with
  | Done (Messages history) =>
      ((∀ msg, msg ∈ history → matches mid author msg = false)
        ∧ deleteMessage room mid author d = (Forbidden403, d))
      ∨ ((∃ msg, msg ∈ history ∧ matches mid author msg = true)
        ∧ entries d !! getChatFilePath (Some (JStr room)) d
          = Some (Log history)
        ∧ deleteMessage room mid author d
          = (Ok200 (),
             write (getChatFilePath (Some (JStr room)) d)
               (List.filter (keep mid author) history) d))
  | Done (Value _) => deleteMessage room mid author d = (ServerError500, d)
  | Thrown => deleteMessage room mid author d = (ServerError500, d)
  end.
Proof.
  unfold deleteMessage.
  destruct (loadChatHistory (Some (JStr room)) d) as [[history|text]|] eqn:Hload;
    [|done|done].
  destruct (length history =? length (List.filter (keep mid author) history))%nat
    eqn:Hlen.
  - left. split; [|done]. apply Nat.eqb_eq in Hlen. symmetry in Hlen.
    intros msg Hmsg. apply filter_length_same with (x := msg) in Hlen; [|done].
    rewrite keep_matches in Hlen. by apply negb_true_iff.
  - right. apply Nat.eqb_neq in Hlen.
    assert (Hex : ∃ msg, msg ∈ history ∧ matches mid author msg = true).
    { destruct (existsb (matches mid author) history) eqn:Hex.
      - apply existsb_exists in Hex as (msg & Hin & Hm).
        exists msg. by rewrite list_elem_of_In.
      - exfalso. apply Hlen. symmetry. apply filter_length_same.
        intros msg Hmsg. rewrite keep_matches. apply negb_true_iff.
        destruct (matches mid author msg) eqn:Hm; [|done].
        assert (existsb (matches mid author) history = true); [|congruence].
        apply existsb_exists. exists msg. by rewrite <- list_elem_of_In. }
    assert (Hentry : entries d !! getChatFilePath (Some (JStr room)) d
                     = Some (Log history)).
    { destruct (loadChatHistory_Messages _ _ _ Hload) as [?|[_ ->]]; [done|].
      destruct Hex as (msg & Hin & _). inversion Hin. }
    split; [done|]. split; [done|].
    unfold saveChatHistory. by rewrite (writeFileSync_log _ _ history).
Qed.




(** C5 (as the code has it): a deletion that succeeds removes every message
    of the room's log that has both the given id and the given author; the
    messages that do not match stay, in their order; the rooms whose names
    lead to the same file read the new log, and every other file is
    untouched. *)
Theorem deleteMessage_removes_every_match room mid author d :
  (deleteMessage room mid author d).1 = Ok200 () →
  let d' := (deleteMessage room mid author d).2 in
  let file := getChatFilePath (Some (JStr room)) d in
  ∃ history,
    loadChatHistory (Some (JStr room)) d = Done (Messages history)
    ∧ loadChatHistory (Some (JStr room)) d'
      = Done (Messages
                (List.filter (λ msg, negb (matches mid author msg)) history))
    ∧ List.filter (λ msg, negb (matches mid author msg)) history
      `sublist_of` history
    ∧ (∀ msg,
         msg ∈ List.filter (λ msg, negb (matches mid author msg)) history →
         matches mid author msg = false)
    ∧ (∀ msg, msg ∈ history → matches mid author msg = false →
         msg ∈ List.filter (λ msg, negb (matches mid author msg)) history)
    ∧ (∀ room', getChatFilePath room' d = file →
         loadChatHistory room' d' = loadChatHistory (Some (JStr room)) d')
    ∧ (∀ room', getChatFilePath room' d ≠ file →
         loadChatHistory room' d' = loadChatHistory room' d)
    ∧ (∀ p, p ≠ file → entries d' !! p = entries d !! p).
Proof.
  intros Hok d' file. subst d' file.
  pose proof (deleteMessage_cases room mid author d) as Hc.
  destruct (loadChatHistory (Some (JStr room)) d) as [[history|text]|] eqn:Hload;
    [| rewrite Hc in Hok; discriminate | rewrite Hc in Hok; discriminate].
  destruct Hc as [[_ Heq]|[_ [_ Heq]]]; rewrite Heq in *; [discriminate|].
  cbn [snd]. exists history. rewrite filter_keep_matches.
  split; [done|]. split; [by apply loadChatHistory_write_eq|].
  split; [apply filter_sublist|]. split; [|split; [|split; [|split]]].
  - intros msg Hmsg. apply list_elem_of_In, filter_In in Hmsg as [_ Hk].
    by apply negb_true_iff.
  - intros msg Hmsg Hno. apply list_elem_of_In, filter_In.
    split; [by apply list_elem_of_In | by rewrite Hno].
  - intros room' Hsame.
    rewrite (loadChatHistory_write_eq (Some (JStr room)) room') by done.
    symmetry. by apply loadChatHistory_write_eq.
  - intros room' Hne. by apply loadChatHistory_write_ne.
  - intros p Hne. cbn [write entries]. by rewrite lookup_insert_ne.
Qed.

Lemma deleteMessage_removes_every_match_witness :
  loadChatHistory (Some (JStr "A"))
    (deleteMessage "A" "m1" (Some (JStr "alice")) Sample.chatting).2
  = Done (Messages [Sample.m2; Sample.m3]).
Proof.
  destruct (deleteMessage_removes_every_match "A" "m1" (Some (JStr "alice"))
              Sample.chatting) as (history & Hbefore & Hafter & _).
  - vm_compute. reflexivity.
  - assert (Hlog : loadChatHistory (Some (JStr "A")) Sample.chatting
                   = Done (Messages [Sample.m1; Sample.m2; Sample.m3]))
      by (vm_compute; reflexivity).
    rewrite Hlog in Hbefore. injection Hbefore as <-.
    rewrite Hafter. vm_compute. reflexivity.
Defined.

(** C5, as stated, fails: two messages sent by alice in the same
    millisecond with the same random draw get the same id; deleting that id
    empties the log, where removing the first match alone would leave the
    second message. *)
Lemma deleteMessage_first_match_only_counterexample :
  let mid := "1700000000000i" in
  let author := Some (JStr "alice") in
  let first := <["id" := JStr mid]> Sample.alice_hi in
  let second := <["id" := JStr mid]> Sample.alice_again in
  let d := write Sample.room_A [first; second] Sample.fresh in
  send_all Sample.twice Sample.fresh = Done d
  ∧ loadChatHistory (Some (JStr "A")) d = Done (Messages [first; second])
  ∧ (deleteMessage "A" mid author d).1 = Ok200 ()
  ∧ loadChatHistory (Some (JStr "A")) (deleteMessage "A" mid author d).2
    = Done (Messages [])
  ∧ remove_first mid author [first; second] = [second]
  ∧ Messages [] ≠ Messages (remove_first mid author [first; second]).
Proof.
  cbv zeta.
  split; [vm_compute; reflexivity|]. split; [vm_compute; reflexivity|].
  split; [vm_compute; reflexivity|]. split; [vm_compute; reflexivity|].
  assert (Hfirst : remove_first "1700000000000i" (Some (JStr "alice"))
            [<["id" := JStr "1700000000000i"]> Sample.alice_hi;
             <["id" := JStr "1700000000000i"]> Sample.alice_again]
          = [<["id" := JStr "1700000000000i"]> Sample.alice_again])
    by (vm_compute; reflexivity).
  rewrite Hfirst. split; [done | discriminate].
Qed.

(** *** Sending a message *)

Lemma acknowledged_room data now r36 :
  <["id" := JStr (message_id now r36)]> data !! "room" = data !! "room".
Proof. by rewrite lookup_insert_ne. Qed.

(** The two ways a send ends. *)
Lemma send_message_cases data now r36 d :
  let ack := <["id" := JStr (message_id now r36)]> data in
  let file := getChatFilePath (data !! "room") d in
  match loadChatHistory (data !! "room") d with
  | Done (Messages history) =>
      if appendable file d
      then send_message data now r36 d
           = Done (ack, write file (history ++ [ack]) d)
      else send_message data now r36 d = Thrown
  | Done (Value _) => send_message data now r36 d = Thrown
  | Thrown => send_message data now r36 d = Thrown
  end.
Proof.
  intros ack file. subst ack file.
  unfold send_message, saveChatMessage. rewrite acknowledged_room.
  destruct (loadChatHistory (data !! "room") d) as [[history|text]|] eqn:Hload;
    [|done|done].
  unfold appendable, writeFileSync.
  destruct (loadChatHistory_Messages _ _ _ Hload) as [->|[-> _]]; [done|].
  by destruct (creatable d _).
Qed.




End ChatFacts.

(** ** Class requests *)

Section RequestFacts.
Import Requests.

Implicit Types (file : table) (record : ClassRequest)
  (requestData participantData : gmap string json).

Lemma existsb_false_elem {A} (f : A → bool) (l : list A) x :
  existsb f l = false → x ∈ l → f x = false.
Proof.
  intros Hex Hx. destruct (f x) eqn:Hf; [|done].
  assert (existsb f l = true); [|congruence].
  apply existsb_exists. exists x. by rewrite <- list_elem_of_In.
Qed.

Lemma inherited_key key :
  bool_decide (key ∈ object_prototype_keys) = true →
  key ∈ object_prototype_keys.
Proof. apply bool_decide_eq_true. Qed.

Lemma own_key key :
  bool_decide (key ∈ object_prototype_keys) = false →
  key ∉ object_prototype_keys.
Proof. apply bool_decide_eq_false. Qed.

Lemma js_get_Own {A} (obj : gmap string A) key a :
  obj !! key = Some a → js_get obj key = Own a.
Proof. intros H. unfold js_get. by rewrite H. Qed.

Lemma js_get_Undefined {A} (obj : gmap string A) key :
  obj !! key = None → key ∉ object_prototype_keys → js_get obj key = Undefined.
Proof. intros H Hk. unfold js_get. rewrite H. by rewrite bool_decide_eq_false_2. Qed.

Lemma js_get_Inherited {A} (obj : gmap string A) key :
  obj !! key = None → key ∈ object_prototype_keys → js_get obj key = Inherited.
Proof. intros H Hk. unfold js_get. rewrite H. by rewrite bool_decide_eq_true_2. Qed.

(** The creator's fields are not among those the server assigns. *)
Lemma creator_participant_body_fields requestData :
  creator_participant (body_fields requestData) = creator_participant requestData.
Proof.
  unfold creator_participant, body_fields, assigned_keys. cbn [foldr].
  by rewrite !lookup_delete_ne.
Qed.

Lemma distinct_students_singleton (p : participant) : distinct_students [p].
Proof.
  intros i j a b Hij Hi Hj.
  apply list_lookup_singleton_Some in Hi as [-> _].
  apply list_lookup_singleton_Some in Hj as [-> _]. done.
Qed.

Lemma distinct_students_push (ps : list participant) participantData :
  distinct_students ps →
  existsb (same_student participantData) ps = false →
  distinct_students (ps ++ [participantData]).
Proof.
  intros Hps Hnew i j a b Hij Hi Hj.
  apply lookup_app_Some in Hi as [Hi|[Hlei Hi]];
    apply lookup_app_Some in Hj as [Hj|[Hlej Hj]].
  - by apply (Hps i j).
  - apply list_lookup_singleton_Some in Hj as [_ <-].
    apply (existsb_false_elem _ _ a Hnew), list_elem_of_lookup. eauto.
  - apply list_lookup_singleton_Some in Hi as [_ <-].
    rewrite strict_eq_sym.
    apply (existsb_false_elem _ _ b Hnew), list_elem_of_lookup. eauto.
  - apply list_lookup_singleton_Some in Hi as [Hi _].
    apply list_lookup_singleton_Some in Hj as [Hj _]. lia.
Qed.

Lemma create_record_ok requestData now iso file :
  map_Forall record_ok file →
  map_Forall record_ok (create requestData now iso file).2.
Proof.
  intros Hfile. unfold create, saveClassRequests, loadClassRequests. cbn [snd].
  apply map_Forall_insert_2; [|done].
  split; [done|]. split; [done|]. split; [|apply distinct_students_singleton].
  cbn [participants fields head]. by rewrite creator_participant_body_fields.
Qed.

Lemma join_record_ok key participantData file :
  map_Forall record_ok file →
  map_Forall record_ok (join key participantData file).2.
Proof.
  intros Hfile. unfold join, saveClassRequests, loadClassRequests, js_get.
  destruct (file !! key) as [record|] eqn:Hkey; [|by case_bool_decide].
  destruct (existsb _ _) eqn:Hjoined; [done|]. cbn [snd].
  apply map_Forall_insert_2; [|done].
  destruct (Hfile key record Hkey) as (Hid & Hcount & Hhead & Hdistinct).
  split; [done|]. split; [done|]. split; [|by apply distinct_students_push].
  cbn [push_participant participants fields].
  destruct (participants record); [discriminate | done].
Qed.

Lemma delete_request_record_ok key creator file :
  map_Forall record_ok file →
  map_Forall record_ok (delete_request key creator file).2.
Proof.
  intros Hfile. unfold delete_request, saveClassRequests, loadClassRequests, js_get.
  destruct (file !! key) as [record|] eqn:Hkey.
  - destruct (strict_neq _ _); [done|]. by apply map_Forall_delete.
  - case_bool_decide; [|done]. by destruct (strict_neq _ _).
Qed.

Lemma run_record_ok ops file :
  map_Forall record_ok file → map_Forall record_ok (run ops file).
Proof.
  revert file. induction ops as [|o ops IH]; intros file Hfile; [done|].
  unfold run. cbn [foldl]. apply IH. destruct o; cbn [apply].
  - by apply create_record_ok.
  - by apply join_record_ok.
  - by apply delete_request_record_ok.
Qed.




(** On a body that is an object, and a table that holds requests, the
    create handler for either kind of body is [create]. *)
Lemma create_body_object requestData now iso file :
  create_body (ObjectBody requestData) now iso (StoredRequest <$> file)
  = (match (create requestData now iso file).1 with
     | Created201 record => Created201 (StoredRequest record)
     | _ => ServerError500
     end,
     StoredRequest <$> (create requestData now iso file).2).
Proof.
  unfold create_body, create, saveClassRequests, loadClassRequests.
  cbn [fst snd]. by rewrite fmap_insert.
Qed.

(** Where the data model ends: [===] never holds between two arrays or two
    objects, so a student id that is not a string but an array or an object
    does not stop a second join. *)
Example join_compound_student_id_twice :
  let p : participant := {[ "studentId" := JCompound "s9" ]} in
  let ops := [ Create Sample.bob_request Sample.t0 Sample.iso0;
               Join "1700000000000" p; Join "1700000000000" p ] in
  participantCount <$> (run ops ∅ !! "1700000000000") = Some 3.
Proof. vm_compute. reflexivity. Qed.

(** C10 (as the code has it): in every table reached from the empty one by
    create, join and delete requests whose bodies are JSON objects, a
    record's [id] is the key it is stored under. *)
Theorem reachable_record_id_is_key ops key record :
  run ops ∅ !! key = Some record → id record = key.
Proof.
  intros Hrec.
  by destruct (run_record_ok ops ∅ (map_Forall_empty _) key record Hrec).
Qed.


(** C10, as stated, fails: a create request whose body is a JSON array
    stores the array under the new id, and an array read back from the
    file has no [id]. *)
Lemma create_array_body_no_id_counterexample :
  let created := create_body (ArrayBody []) Sample.t0 Sample.iso0 ∅ in
  created.1 = Created201 (StoredArray [])
  ∧ created.2 !! "1700000000000" = Some (StoredArray [])
  ∧ stored_id (StoredArray []) = None
  ∧ stored_id <$> (created.2 !! "1700000000000") ≠ Some (Some "1700000000000").
Proof.
  cbv zeta. split; [vm_compute; reflexivity|].
  assert (H : (create_body (ArrayBody []) Sample.t0 Sample.iso0 ∅).2
                !! "1700000000000" = Some (StoredArray []))
    by (vm_compute; reflexivity).
  rewrite H. split; [done|]. split; [done | discriminate].
Qed.

Lemma reachable_record_id_is_key_witness :
  Requests.id Sample.bob_record = "1700000000000".
Proof.
  apply (reachable_record_id_is_key Sample.bob_then_dave).
  vm_compute. reflexivity.
Defined.

(** *** Create *)

Lemma create_lookup requestData now iso file :
  ∃ record,
    create requestData now iso file
    = (Created201 record, <[pretty now := record]> file)
    ∧ id record = pretty now
    ∧ participants record = [creator_participant requestData]
    ∧ participantCount record = 1
    ∧ createdAt record = iso.
Proof. eexists. repeat split. Qed.

(** Requests created at different clock readings do not collide. *)
Lemma create_other_clock requestData now iso file now' record :
  now' ≠ now →
  file !! pretty now' = Some record →
  (create requestData now iso file).2 !! pretty now' = Some record.
Proof.
  intros Hne Hrec. unfold create, saveClassRequests, loadClassRequests.
  cbn [snd]. rewrite lookup_insert_ne; [done|].
  intros Heq. by apply (inj pretty) in Heq.
Qed.

(** C3 fails on the code: the id is the clock reading alone.  Two requests
    created in one millisecond get one id, and the second record replaces
    the first in the table. *)
Theorem create_same_millisecond_overwrites :
  let first := create Sample.bob_request Sample.t0 Sample.iso0 ∅ in
  let second := create Sample.carol_request Sample.t0 Sample.iso0 first.2 in
  let bob := {| id := "1700000000000";
                participants := [creator_participant Sample.bob_request];
                participantCount := 1;
                createdAt := Sample.iso0;
                fields := Sample.bob_request |} in
  first = (Created201 bob, {[ "1700000000000" := bob ]})
  ∧ second = (Created201 Sample.carol_record,
              {[ "1700000000000" := Sample.carol_record ]})
  ∧ id bob = id Sample.carol_record
  ∧ size second.2 = 1
  ∧ (∀ key record, second.2 !! key = Some record →
       fields record !! "creatorName" ≠ Some (JStr "bob")).
Proof.
  cbv zeta.
  assert (H1 : create Sample.bob_request Sample.t0 Sample.iso0 ∅
    = (Created201
         {| id := "1700000000000";
            participants := [creator_participant Sample.bob_request];
            participantCount := 1;
            createdAt := Sample.iso0;
            fields := Sample.bob_request |},
       {[ "1700000000000" :=
            {| id := "1700000000000";
               participants := [creator_participant Sample.bob_request];
               participantCount := 1;
               createdAt := Sample.iso0;
               fields := Sample.bob_request |} ]}))
    by (vm_compute; reflexivity).
  rewrite H1. cbn [snd].
  assert (H2 : create Sample.carol_request Sample.t0 Sample.iso0
      {[ "1700000000000" :=
            {| id := "1700000000000";
               participants := [creator_participant Sample.bob_request];
               participantCount := 1;
               createdAt := Sample.iso0;
               fields := Sample.bob_request |} ]}
    = (Created201 Sample.carol_record,
       {[ "1700000000000" := Sample.carol_record ]}))
    by (vm_compute; reflexivity).
  rewrite H2. cbn [snd].
  split; [done|]. split; [done|]. split; [done|].
  split; [by rewrite map_size_singleton|].
  intros key record Hrec. apply lookup_singleton_Some in Hrec as [_ <-].
  vm_compute. discriminate.
Qed.

(** *** Join *)

Lemma creator_participant_studentId requestData :
  creator_participant requestData !! "studentId"
  = requestData !! "creatorStudentId".
Proof.
  unfold creator_participant, set_field.
  destruct (requestData !! "creatorClass"), (requestData !! "creatorName"),
    (requestData !! "creatorStudentId");
    by simplify_map_eq.
Qed.

(** What [join] does at a key that is not the name of an inherited
    property: 404 without a record, 400 when the student id is already
    among the participants, and otherwise the participant is appended, the
    count recomputed and the new record returned and stored. *)
Lemma join_spec key participantData file :
  key ∉ object_prototype_keys →
  match file !! key with
  | None => join key participantData file = (NotFound404, file)
  | Some record =>
      if existsb (same_student participantData) (participants record)
      then join key participantData file = (BadRequest400, file)
      else
        ∃ record',
          join key participantData file
          = (Ok200 record', <[key := record']> file)
          ∧ participants record' = participants record ++ [participantData]
          ∧ participantCount record' = length (participants record')
          ∧ id record' = id record
          ∧ fields record' = fields record
          ∧ createdAt record' = createdAt record
  end.
Proof.
  intros Hkey. unfold join, loadClassRequests, saveClassRequests.
  destruct (file !! key) as [record|] eqn:Hrec.
  - rewrite (js_get_Own _ _ _ Hrec).
    destruct (existsb _ _); [done|]. eexists. split; [done|].
    repeat split.
  - by rewrite (js_get_Undefined _ _ Hrec Hkey).
Qed.

(** X12: Joining a request with its creator's student id, right after it was
    created, is a conflict. *)
Lemma create_then_join_creator requestData now iso file participantData :
  strict_eq (requestData !! "creatorStudentId")
            (participantData !! "studentId") = true →
  let created := (create requestData now iso file).2 in
  join (pretty now) participantData created = (BadRequest400, created).
Proof.
  intros Hsame created. subst created.
  unfold create, join, loadClassRequests, saveClassRequests. cbn [snd].
  rewrite (js_get_Own _ _ _ (lookup_insert_eq _ _ _)).
  cbn [participants existsb]. unfold same_student.
  by rewrite creator_participant_studentId, Hsame.
Qed.

(** C7 fails on the code at the name of an inherited property: the table
    has no request ["constructor"], yet the lookup finds the inherited
    property, the handler goes on and throws, and the answer is status 500
    where the claim asks for 404. *)
Theorem join_inherited_key_not_404 :
  let file := (create Sample.bob_request Sample.t0 Sample.iso0 ∅).2 in
  file !! "constructor" = None
  ∧ join "constructor" Sample.dave file = (ServerError500, file)
  ∧ (join "constructor" Sample.dave file).1 ≠ NotFound404
  ∧ join "no-such-id" Sample.dave file = (NotFound404, file).
Proof.
  cbv zeta. split; [vm_compute; reflexivity|].
  assert (H : ∀ file : table, file !! "constructor" = None →
            join "constructor" Sample.dave file = (ServerError500, file)).
  { intros file Hnone. unfold join, loadClassRequests.
    rewrite js_get_Inherited; [done | done |].
    apply inherited_key. vm_compute. reflexivity. }
  rewrite H by (vm_compute; reflexivity).
  split; [done|]. split; [discriminate|].
  pose proof (join_spec "no-such-id" Sample.dave
    (create Sample.bob_request Sample.t0 Sample.iso0 ∅).2) as Hspec.
  assert (Hnone : (create Sample.bob_request Sample.t0 Sample.iso0 ∅).2
                    !! "no-such-id" = None) by (vm_compute; reflexivity).
  rewrite Hnone in Hspec. apply Hspec.
  apply own_key. vm_compute. reflexivity.
Qed.

(** *** Delete *)

(** What [delete] does at a key that is not the name of an inherited
    property: 404 without a record, 403 when the requester is not the
    creator, both leaving the table as it was; otherwise the record is
    removed. *)
Lemma delete_request_spec key creator file :
  key ∉ object_prototype_keys →
  match file !! key with
  | None => delete_request key creator file = (NotFound404, file)
  | Some record =>
      if strict_eq (fields record !! "creatorName") creator
      then delete_request key creator file = (Ok200 (), delete key file)
           ∧ delete key file !! key = None
      else delete_request key creator file = (Forbidden403, file)
  end.
Proof.
  intros Hkey. unfold delete_request, loadClassRequests, saveClassRequests.
  destruct (file !! key) as [record|] eqn:Hrec.
  - rewrite (js_get_Own _ _ _ Hrec). unfold strict_neq.
    destruct (strict_eq _ _); cbn [negb]; [|done].
    split; [done | apply lookup_delete_eq].
  - by rewrite (js_get_Undefined _ _ Hrec Hkey).
Qed.

(** C8 fails on the code at the name of an inherited property: the table
    has no request ["toString"], yet deleting it is answered with status
    403 when a creator is named, and with status 200 when none is, where
    the claim asks for 404. *)
Theorem delete_inherited_key_not_404 :
  let file := (create Sample.bob_request Sample.t0 Sample.iso0 ∅).2 in
  file !! "toString" = None
  ∧ delete_request "toString" (Some (JStr "bob")) file = (Forbidden403, file)
  ∧ delete_request "toString" None file = (Ok200 (), file)
  ∧ delete_request "no-such-id" (Some (JStr "bob")) file = (NotFound404, file)
  ∧ delete_request "1700000000000" (Some (JStr "carol")) file
    = (Forbidden403, file)
  ∧ delete_request "1700000000000" (Some (JStr "bob")) file = (Ok200 (), ∅).
Proof.
  cbv zeta.
  set (file := (create Sample.bob_request Sample.t0 Sample.iso0 ∅).2).
  assert (Hnone : file !! "toString" = None) by (vm_compute; reflexivity).
  assert (Hin : "toString" ∈ object_prototype_keys)
    by (apply inherited_key; vm_compute; reflexivity).
  split; [done|]. unfold delete_request, loadClassRequests, saveClassRequests.
  rewrite (js_get_Inherited _ _ Hnone Hin).
  split; [done|]. split; [done|].
  split; [vm_compute; reflexivity|].
  split; vm_compute; reflexivity.
Qed.

End RequestFacts.

(** ** The registry of live sockets *)

Section RegistryFacts.
Import Registry.

(** X19: Joining a room changes the member set of no other room: nobody is
    taken out of the room that was joined before. *)
Lemma join_room_other_rooms sid room st room' :
  room' ≠ room →
  members (activeRooms (state_of (join_room sid room st))) room'
  = members (activeRooms st) room'
  ∧ members (adapter (state_of (join_room sid room st))) room'
    = members (adapter st) room'.
Proof.
  intros Hne. unfold join_room, members.
  destruct (js_get (activeRooms st) room); cbn [state_of activeRooms adapter];
    by rewrite ?lookup_insert_ne.
Qed.

(** Joining a room whose name is not shadowed by an inherited property
    adds the socket to it and makes it the socket's current room. *)
Lemma join_room_joined sid room st :
  js_get (activeRooms st) room ≠ Inherited →
  ∃ st', join_room sid room st = Returned st'
    ∧ sid ∈ members (activeRooms st') room
    ∧ currentRoom st' !! sid = Some room.
Proof.
  intros Hget. unfold join_room, members.
  destruct (js_get (activeRooms st) room); [| done |];
    eexists; (split; [done|]); cbn [activeRooms currentRoom];
    rewrite !lookup_insert_eq; (split; [set_solver | done]).
Qed.

(** C2 fails on the code: a socket that joins room A and then room B is a
    member of both, in [activeRooms] and for broadcasts; only its current
    room moves.  When it disconnects it is taken out of B alone, and A
    keeps it. *)
Theorem join_room_keeps_previous_room :
  let st1 := state_of (join_room "s1" "A" empty) in
  let st2 := state_of (join_room "s1" "B" st1) in
  let st3 := state_of (disconnect "s1" st2) in
  join_room "s1" "A" empty = Returned st1
  ∧ join_room "s1" "B" st1 = Returned st2
  ∧ members (activeRooms st2) "A" = {[ "s1" ]}
  ∧ members (activeRooms st2) "B" = {[ "s1" ]}
  ∧ members (adapter st2) "A" = {[ "s1" ]}
  ∧ members (adapter st2) "B" = {[ "s1" ]}
  ∧ currentRoom st2 !! "s1" = Some "B"
  ∧ disconnect "s1" st2 = Returned st3
  ∧ members (activeRooms st3) "A" = {[ "s1" ]}
  ∧ activeRooms st3 !! "B" = None.
Proof. cbv zeta. repeat split; vm_compute; reflexivity. Qed.

End RegistryFacts.

(** * Further properties *)

(** ** Chat storage *)

Section ChatMore.
Import Chat.

Implicit Types (d : disk) (msg data : message) (history log : list message)
  (p : path).

(** X1: A deletion neither creates nor removes a file, and changes nothing
    but logs: a file that held a log holds a part of it afterwards, in
    the same order, and what else is on the disk is as it was.  So no
    room's log gains a message. *)
Theorem deleteMessage_keeps_files room mid author d :
  let d' := (deleteMessage room mid author d).2 in
  dom (entries d') = dom (entries d)
  ∧ dirname d' = dirname d
  ∧ creatable d' = creatable d
  ∧ (∀ p,
       match entries d !! p with
       | Some (Log log) =>
           ∃ log', entries d' !! p = Some (Log log') ∧ log' `sublist_of` log
       | other => entries d' !! p = other
       end)
  ∧ (∀ (room' : option json) log,
       loadChatHistory room' d = Done (Messages log) →
       ∃ log', loadChatHistory room' d' = Done (Messages log')
               ∧ log' `sublist_of` log).
Proof.
  intros d'. subst d'.
  pose proof (deleteMessage_cases room mid author d) as Hc.
  assert (Hsame : ∀ p,
    match entries d !! p with
    | Some (Log log) =>
        ∃ log', entries d !! p = Some (Log log') ∧ log' `sublist_of` log
    | other => entries d !! p = other
    end).
  { intros p. destruct (entries d !! p) as [[]|]; eauto. }
  assert (Hunchanged : deleteMessage room mid author d = (ServerError500, d)
                       ∨ deleteMessage room mid author d = (Forbidden403, d)
                       ∨ ∃ history,
                           entries d !! getChatFilePath (Some (JStr room)) d
                           = Some (Log history)
                           ∧ deleteMessage room mid author d
                             = (Ok200 (),
                                write (getChatFilePath (Some (JStr room)) d)
                                  (List.filter (keep mid author) history) d)).
  { destruct (loadChatHistory (Some (JStr room)) d) as [[history|text]|];
      [|by left|by left].
    destruct Hc as [[_ ->]|[_ [Hentry ->]]]; [by right; left|].
    right; right. eauto. }
  destruct Hunchanged as [->|[->|(history & Hentry & ->)]]; cbn [snd].
  1,2: (repeat split; [done | ]; intros room' log Hload; eauto).
  assert (Hfiles : ∀ p,
    match entries d !! p with
    | Some (Log log) =>
        ∃ log', entries (write (getChatFilePath (Some (JStr room)) d)
                           (List.filter (keep mid author) history) d) !! p
                = Some (Log log') ∧ log' `sublist_of` log
    | other => entries (write (getChatFilePath (Some (JStr room)) d)
                          (List.filter (keep mid author) history) d) !! p
               = other
    end).
  { intros p. cbn [write entries].
    destruct (decide (getChatFilePath (Some (JStr room)) d = p)) as [<-|Hne].
    - rewrite Hentry, lookup_insert_eq. eexists. split; [done|].
      apply filter_sublist.
    - rewrite lookup_insert_ne by done.
      destruct (entries d !! p) as [[]|]; eauto. }
  split.
  { cbn [write entries]. rewrite dom_insert_L.
    apply subseteq_union_1_L, singleton_subseteq_l, elem_of_dom. eauto. }
  split; [done|]. split; [done|]. split; [exact Hfiles|].
  intros room' log Hload. unfold loadChatHistory in *.
  rewrite getChatFilePath_write. specialize (Hfiles (getChatFilePath room' d)).
  destruct (entries d !! getChatFilePath room' d) as [[]|] eqn:Hroom';
    try discriminate.
  - injection Hload as <-. destruct Hfiles as (log' & -> & Hsub). eauto.
  - injection Hload as <-. rewrite Hfiles. eauto.
Qed.

(** X2: Sending a message and then deleting it, by its id and its author,
    gives the room the log it had and leaves every other file as it was,
    when the author is a string or is missing, the room's file held a log
    or could be created, and no earlier message has that id and author.
    The room's file exists afterwards even when it did not before. *)
Theorem send_then_delete_restores_log data now r36 history d :
  let file := getChatFilePath (data !! "room") d in
  let mid := message_id now r36 in
  (data !! "author" = None ∨ ∃ name, data !! "author" = Some (JStr name)) →
  loadChatHistory (data !! "room") d = Done (Messages history) →
  appendable file d = true →
  (∀ msg, msg ∈ history → matches mid (data !! "author") msg = false) →
  ∃ ack d1,
    send_message data now r36 d = Done (ack, d1)
    ∧ deleteMessage (template (data !! "room")) mid (data !! "author") d1
      = (Ok200 (), write file history d).
Proof.
  intros file mid Hauthor Hload Happ Hold. subst file mid.
  pose proof (send_message_cases data now r36 d) as Hc. cbv zeta in Hc.
  rewrite Hload, Happ in Hc. eexists _, _. split; [exact Hc|].
  set (ack := <["id" := JStr (message_id now r36)]> data).
  set (file := getChatFilePath (data !! "room") d).
  assert (Hself : strict_eq (data !! "author") (data !! "author") = true).
  { destruct Hauthor as [->|[name ->]]; [done|].
    cbn. by rewrite bool_decide_eq_true_2. }
  assert (Hack : matches (message_id now r36) (data !! "author") ack = true).
  { unfold matches, ack. rewrite lookup_insert_eq, lookup_insert_ne by done.
    rewrite Hself. cbn. by rewrite bool_decide_eq_true_2. }
  assert (Hload1 : loadChatHistory (Some (JStr (template (data !! "room"))))
                     (write file (history ++ [ack]) d)
                   = Done (Messages (history ++ [ack])))
    by (by apply loadChatHistory_write_eq).
  unfold deleteMessage. rewrite Hload1.
  rewrite List.filter_app. cbn [List.filter]. rewrite (keep_matches _ _ ack), Hack.
  cbn [negb]. rewrite app_nil_r, filter_all_kept.
  2:{ intros msg Hmsg. rewrite keep_matches, (Hold msg Hmsg). done. }
  rewrite length_app. cbn [length].
  destruct (Nat.eqb_spec (length history + 1) (length history)) as [Hlen|_];
    [lia|].
  unfold saveChatHistory.
  rewrite getChatFilePath_write, getChatFilePath_template. fold file.
  rewrite (writeFileSync_log _ _ (history ++ [ack]))
    by (cbn [write entries]; apply lookup_insert_eq).
  unfold write. cbn [dirname entries creatable]. by rewrite insert_insert_eq.
Qed.

Lemma send_then_delete_restores_log_witness :
  ∃ ack d1,
    send_message Sample.carol_hi Sample.t0 Sample.half Sample.chatting
    = Done (ack, d1)
    ∧ deleteMessage (template (Sample.carol_hi !! "room"))
        (message_id Sample.t0 Sample.half) (Sample.carol_hi !! "author") d1
      = (Ok200 (),
         write (getChatFilePath (Sample.carol_hi !! "room") Sample.chatting)
           [Sample.m1; Sample.m2; Sample.m3] Sample.chatting).
Proof.
  apply (send_then_delete_restores_log Sample.carol_hi Sample.t0 Sample.half
           [Sample.m1; Sample.m2; Sample.m3] Sample.chatting).
  - right. exists "carol". vm_compute. reflexivity.
  - vm_compute. reflexivity.
  - vm_compute. reflexivity.
  - intros msg Hmsg.
    repeat (apply elem_of_cons in Hmsg as [->|Hmsg]; [vm_compute; reflexivity|]).
    inversion Hmsg.
Defined.

(** X3: A message stored without an author is deleted by a request that
    names its id and no author: two missing values are equal. *)
Theorem deleteMessage_without_author room mid msg history d :
  loadChatHistory (Some (JStr room)) d = Done (Messages history) →
  msg ∈ history →
  msg !! "id" = Some (JStr mid) →
  msg !! "author" = None →
  ∃ history',
    (deleteMessage room mid None d).1 = Ok200 ()
    ∧ loadChatHistory (Some (JStr room)) (deleteMessage room mid None d).2
      = Done (Messages history')
    ∧ msg ∉ history'.
Proof.
  intros Hload Hmsg Hid Hauthor.
  assert (Hm : matches mid None msg = true).
  { unfold matches. rewrite Hid, Hauthor. cbn. by rewrite bool_decide_eq_true_2. }
  pose proof (deleteMessage_cases room mid None d) as Hc. rewrite Hload in Hc.
  destruct Hc as [[Hall _]|[_ [_ ->]]].
  { rewrite (Hall msg Hmsg) in Hm. discriminate. }
  cbn [fst snd]. eexists. split; [done|].
  split; [by apply loadChatHistory_write_eq|].
  intros Hin. apply list_elem_of_In, filter_In in Hin as [_ Hk].
  rewrite keep_matches, Hm in Hk. discriminate.
Qed.

Lemma deleteMessage_without_author_witness :
  let msg : gmap string json := {[ "id" := JStr "m0"; "room" := JStr "A" ]} in
  let d := write Sample.room_A [msg; Sample.m1] Sample.fresh in
  ∃ history',
    (deleteMessage "A" "m0" None d).1 = Ok200 ()
    ∧ loadChatHistory (Some (JStr "A")) (deleteMessage "A" "m0" None d).2
      = Done (Messages history')
    ∧ msg ∉ history'.
Proof.
  apply (deleteMessage_without_author "A" "m0"
           {[ "id" := JStr "m0"; "room" := JStr "A" ]}
           [{[ "id" := JStr "m0"; "room" := JStr "A" ]}; Sample.m1]).
  - vm_compute. reflexivity.
  - apply list_elem_of_here.
  - vm_compute. reflexivity.
  - vm_compute. reflexivity.
Defined.

(** X4: No request deletes a message whose author is an array or an object:
    such a value is equal to nothing a request can carry. *)
Theorem deleteMessage_compound_author_stays room mid author msg text history d :
  loadChatHistory (Some (JStr room)) d = Done (Messages history) →
  msg ∈ history →
  msg !! "author" = Some (JCompound text) →
  ∃ history',
    loadChatHistory (Some (JStr room)) (deleteMessage room mid author d).2
    = Done (Messages history')
    ∧ msg ∈ history'.
Proof.
  intros Hload Hmsg Hauthor.
  pose proof (deleteMessage_cases room mid author d) as Hc. rewrite Hload in Hc.
  destruct Hc as [[_ ->]|[_ [_ ->]]]; cbn [snd]; [eauto|].
  eexists. split; [by apply loadChatHistory_write_eq|].
  apply list_elem_of_In, filter_In. split; [by apply list_elem_of_In|].
  unfold keep, strict_neq. rewrite Hauthor. cbn.
  by rewrite orb_true_r.
Qed.

Lemma deleteMessage_compound_author_stays_witness :
  let msg : gmap string json :=
    {[ "id" := JStr "m0"; "author" := JCompound "alice,bob" ]} in
  let d := write Sample.room_A [msg] Sample.fresh in
  ∃ history',
    loadChatHistory (Some (JStr "A"))
      (deleteMessage "A" "m0" (Some (JCompound "alice,bob")) d).2
    = Done (Messages history')
    ∧ msg ∈ history'.
Proof.
  apply (deleteMessage_compound_author_stays "A" "m0"
           (Some (JCompound "alice,bob"))
           {[ "id" := JStr "m0"; "author" := JCompound "alice,bob" ]}
           "alice,bob"
           [{[ "id" := JStr "m0"; "author" := JCompound "alice,bob" ]}]).
  - vm_compute. reflexivity.
  - apply list_elem_of_here.
  - vm_compute. reflexivity.
Defined.

(** X5: The id a client puts in a message has no effect: the server's id
    replaces it, and what is stored and acknowledged, or thrown, is what a
    message without an id would give. *)
Theorem send_message_ignores_client_id data now r36 d :
  send_message data now r36 d = send_message (delete "id" data) now r36 d
  ∧ ∀ ack d',
      send_message data now r36 d = Done (ack, d') →
      ack !! "id" = Some (JStr (message_id now r36))
      ∧ ∀ k, k ≠ "id" → ack !! k = data !! k.
Proof.
  split.
  - unfold send_message. by rewrite insert_delete_eq.
  - intros ack d' Hsend. unfold send_message in Hsend.
    destruct (saveChatMessage _ _ d); [|done]. injection Hsend as <- _.
    split; [apply lookup_insert_eq|]. intros k Hk. by rewrite lookup_insert_ne.
Qed.

(** *** Sequences of sends *)

Implicit Types (e : message * Z * string) (events : list (message * Z * string)).

(** The file an event writes. *)
Lemma send_all_cons e events d :
  send_all (e :: events) d
  = match send_message e.1.1 e.1.2 e.2 d with
    | Done (_, d') => send_all events d'
    | Thrown => Thrown
    end.
Proof. by destruct e as [[data now] r36]. Qed.


Lemma send_message_acknowledged e d :
  let file := getChatFilePath (e.1.1 !! "room") d in
  match loadChatHistory (e.1.1 !! "room") d with
  | Done (Messages history) =>
      if appendable file d
      then send_message e.1.1 e.1.2 e.2 d
           = Done (acknowledged e, write file (history ++ [acknowledged e]) d)
      else send_message e.1.1 e.1.2 e.2 d = Thrown
  | _ => send_message e.1.1 e.1.2 e.2 d = Thrown
  end.
Proof.
  pose proof (send_message_cases e.1.1 e.1.2 e.2 d) as Hc. cbv zeta in *.
  by destruct (loadChatHistory (e.1.1 !! "room") d) as [[]|].
Qed.

Lemma appendable_write p p' log d :
  appendable p (write p' log d)
  = if decide (p' = p) then true else appendable p d.
Proof.
  unfold appendable. cbn [write entries creatable]. case_decide as Hp.
  - subst. by rewrite lookup_insert_eq.
  - by rewrite lookup_insert_ne.
Qed.



(** X7: However many messages are sent, to whatever rooms, none is lost:
    when every send has a file it can append to, the sequence runs to its
    end, and a file that held a log (or did not exist) then holds that
    log followed by the messages of the rooms that lead to this file, in
    the order they were sent; what else is on the disk is as it was. *)
Theorem send_all_appends events d :
  (∀ e, e ∈ events →
     appendable (getChatFilePath (e.1.1 !! "room") d) d = true) →
  ∃ d',
    send_all events d = Done d'
    ∧ dirname d' = dirname d
    ∧ ∀ p,
        match entries d !! p with
        | Some (Log log) =>
            entries d' !! p
            = Some (Log (log ++ (acknowledged <$> sent_to p d events)))
        | None =>
            entries d' !! p
            = if decide (sent_to p d events = []) then None
              else Some (Log (acknowledged <$> sent_to p d events))
        | other => entries d' !! p = other
        end.
Proof.
  revert d. induction events as [|e events IH]; intros d Hall.
  { exists d. split; [done|]. split; [done|]. intros p. cbn.
    destruct (entries d !! p) as [[]|]; by rewrite ?app_nil_r. }
  assert (He : appendable (getChatFilePath (e.1.1 !! "room") d) d = true)
    by (apply Hall; left).
  set (file := getChatFilePath (e.1.1 !! "room") d) in *.
  pose proof (send_message_acknowledged e d) as Hsend. cbv zeta in Hsend.
  fold file in Hsend. rewrite He in Hsend.
  assert (Hfile : (∃ history, entries d !! file = Some (Log history)
                     ∧ loadChatHistory (e.1.1 !! "room") d
                       = Done (Messages history))
                  ∨ (entries d !! file = None
                     ∧ loadChatHistory (e.1.1 !! "room") d = Done (Messages []))).
  { unfold appendable in He. unfold loadChatHistory. fold file.
    destruct (entries d !! file) as [[]|]; try done; [left | right]; eauto. }
  assert (∃ history,
            loadChatHistory (e.1.1 !! "room") d = Done (Messages history)
            ∧ (entries d !! file = Some (Log history)
               ∨ entries d !! file = None ∧ history = []))
    as (history & Hload & Hentry).
  { destruct Hfile as [(history & ? & ?)|[? ?]]; eauto. }
  rewrite Hload in Hsend.
  set (d1 := write file (history ++ [acknowledged e]) d) in *.
  destruct (IH d1) as (d' & Hrun & Hdir & Hfiles).
  { intros e' He'. unfold d1. rewrite getChatFilePath_write, appendable_write.
    case_decide; [done|]. apply Hall. by right. }
  exists d'. rewrite send_all_cons, Hsend. split; [done|].
  split; [by rewrite Hdir|].
  intros p. specialize (Hfiles p). unfold sent_to in *. cbn [List.filter].
  assert (Hsame : ∀ e', getChatFilePath (e'.1.1 !! "room") d1
                        = getChatFilePath (e'.1.1 !! "room") d) by done.
  assert (Hfilter : List.filter
            (λ e', bool_decide (getChatFilePath (e'.1.1 !! "room") d1 = p)) events
          = List.filter
              (λ e', bool_decide (getChatFilePath (e'.1.1 !! "room") d = p)) events)
    by done.
  rewrite Hfilter in Hfiles. fold file.
  unfold d1 in Hfiles. cbn [write entries] in Hfiles.
  destruct (decide (file = p)) as [<-|Hne].
  - rewrite lookup_insert_eq in Hfiles.
    rewrite bool_decide_eq_true_2 by done. rewrite fmap_cons.
    destruct Hentry as [Hentry|[Hentry ->]]; rewrite Hentry.
    + by rewrite <- app_assoc in Hfiles.
    + by rewrite decide_False.
  - rewrite lookup_insert_ne in Hfiles by done.
    by rewrite bool_decide_eq_false_2.
Qed.

Lemma send_all_appends_witness :
  let events := (Sample.carol_hi, Sample.t0, Sample.half) :: Sample.twice in
  ∃ d',
    send_all events Sample.chatting = Done d'
    ∧ entries d' !! Sample.room_A
      = Some (Log ([Sample.m1; Sample.m2; Sample.m3]
                   ++ (acknowledged <$> sent_to Sample.room_A Sample.chatting events))).
Proof.
  destruct (send_all_appends
              ((Sample.carol_hi, Sample.t0, Sample.half) :: Sample.twice)
              Sample.chatting) as (d' & Hrun & _ & Hfiles).
  - intros e He.
    repeat (apply elem_of_cons in He as [->|He]; [vm_compute; reflexivity|]).
    inversion He.
  - specialize (Hfiles Sample.room_A).
    assert (Hentry : entries Sample.chatting !! Sample.room_A
                     = Some (Log [Sample.m1; Sample.m2; Sample.m3]))
      by (vm_compute; reflexivity).
    rewrite Hentry in Hfiles. exists d'. by split.
Defined.

End ChatMore.

(** ** Class requests *)

Section RequestMore.
Import Requests.

Implicit Types (file : table) (record : ClassRequest)
  (requestData participantData : gmap string json).

(** *** The ids the server assigns are not names of inherited properties *)

Lemma pretty_N_char_numeral (x : N) : numeral_start (pretty_N_char x) = true.
Proof. unfold pretty_N_char. by repeat case_match. Qed.

Lemma pretty_N_go_numeral (x : N) s :
  (0 < x)%N → starts_numeral (pretty_N_go x s) = true.
Proof.
  revert s. induction (N.lt_wf_0 x) as [x _ IH]; intros s Hx.
  rewrite pretty_N_go_step by done.
  destruct (decide (x `div` 10 = 0)%N) as [->|Hdiv].
  - rewrite pretty_N_go_0. apply pretty_N_char_numeral.
  - apply IH; [apply N.div_lt; lia | by apply N.neq_0_lt_0].
Qed.

Lemma pretty_Z_numeral (n : Z) : starts_numeral (pretty n) = true.
Proof.
  destruct n as [|p|p]; [done| |done].
  unfold pretty, pretty_Z, pretty, pretty_positive, pretty, pretty_N.
  rewrite decide_False by done. by apply pretty_N_go_numeral.
Qed.

Lemma numeral_not_inherited key :
  starts_numeral key = true → key ∉ object_prototype_keys.
Proof.
  intros Hnum Hin. unfold object_prototype_keys in Hin.
  repeat (apply elem_of_cons in Hin as [->|Hin]; [by vm_compute in Hnum|]).
  by apply elem_of_nil in Hin.
Qed.

Lemma pretty_not_inherited (n : Z) : pretty n ∉ object_prototype_keys.
Proof. apply numeral_not_inherited, pretty_Z_numeral. Qed.

(** Every key of a table the handlers built is a numeral. *)
Lemma run_keys_numeral ops file :
  map_Forall (λ key _, starts_numeral key = true) file →
  map_Forall (λ key _, starts_numeral key = true) (run ops file).
Proof.
  revert file. induction ops as [|o ops IH]; intros file Hfile; [done|].
  unfold run. cbn [foldl]. apply IH. destruct o; cbn [apply].
  - unfold create, saveClassRequests, loadClassRequests. cbn [snd].
    apply map_Forall_insert_2; [apply pretty_Z_numeral | done].
  - unfold join, saveClassRequests, loadClassRequests, js_get.
    destruct (file !! key) as [record|] eqn:Hkey; [|by case_bool_decide].
    destruct (existsb _ _); [done|]. cbn [snd].
    apply map_Forall_insert_2; [by apply (Hfile key record) | done].
  - unfold delete_request, saveClassRequests, loadClassRequests, js_get.
    destruct (file !! key) as [record|] eqn:Hkey.
    + destruct (strict_neq _ _); [done|]. by apply map_Forall_delete.
    + case_bool_decide; [|done]. by destruct (strict_neq _ _).
Qed.

Lemma reachable_inherited_absent ops key :
  key ∈ object_prototype_keys → run ops ∅ !! key = None.
Proof.
  intros Hkey. destruct (run ops ∅ !! key) as [record|] eqn:Hrec; [|done].
  destruct (numeral_not_inherited key); [|done].
  by apply (run_keys_numeral ops ∅ (map_Forall_empty _) key record).
Qed.

Lemma body_fields_room requestData :
  body_fields requestData !! "room" = requestData !! "room".
Proof.
  unfold body_fields, assigned_keys. cbn [foldr]. by rewrite !lookup_delete_ne.
Qed.

Lemma body_fields_creatorName requestData :
  body_fields requestData !! "creatorName" = requestData !! "creatorName".
Proof.
  unfold body_fields, assigned_keys. cbn [foldr]. by rewrite !lookup_delete_ne.
Qed.

(** *** Which requests a handler touches *)

(** X8: Each handler changes at most the request it names; joining neither
    adds nor removes a request, deleting adds none, and creating adds
    exactly the id it assigns. *)
Theorem handlers_touch_one_request requestData now iso key participantData
    creator file :
  (∀ key', key' ≠ pretty now →
     (create requestData now iso file).2 !! key' = file !! key')
  ∧ dom (create requestData now iso file).2 = {[ pretty now ]} ∪ dom file
  ∧ (∀ key', key' ≠ key →
       (join key participantData file).2 !! key' = file !! key')
  ∧ dom (join key participantData file).2 = dom file
  ∧ (∀ key', key' ≠ key →
       (delete_request key creator file).2 !! key' = file !! key')
  ∧ dom (delete_request key creator file).2 ⊆ dom file.
Proof.
  split; [|split; [|split; [|split; [|split]]]].
  - intros key' Hne. unfold create, saveClassRequests, loadClassRequests.
    cbn [snd]. by rewrite lookup_insert_ne.
  - unfold create, saveClassRequests, loadClassRequests. cbn [snd].
    apply dom_insert_L.
  - intros key' Hne. unfold join, saveClassRequests, loadClassRequests, js_get.
    destruct (file !! key); [|by case_bool_decide].
    destruct (existsb _ _); [done|]. cbn [snd]. by rewrite lookup_insert_ne.
  - unfold join, saveClassRequests, loadClassRequests, js_get.
    destruct (file !! key) as [record|] eqn:Hkey; [|by case_bool_decide].
    destruct (existsb _ _); [done|]. cbn [snd]. rewrite dom_insert_L.
    apply subseteq_union_1_L, singleton_subseteq_l, elem_of_dom. eauto.
  - intros key' Hne.
    unfold delete_request, saveClassRequests, loadClassRequests, js_get.
    destruct (file !! key).
    + destruct (strict_neq _ _); [done|]. cbn [snd]. by rewrite lookup_delete_ne.
    + case_bool_decide; [|done]. by destruct (strict_neq _ _).
  - unfold delete_request, saveClassRequests, loadClassRequests, js_get.
    destruct (file !! key).
    + destruct (strict_neq _ _); [done|]. cbn [snd]. rewrite dom_delete_L.
      by apply subseteq_difference_l.
    + case_bool_decide; [|done]. by destruct (strict_neq _ _).
Qed.

(** X9: Requests created at different clock readings are both stored, each
    with the fields of its own body. *)
Theorem create_distinct_clocks_both_stored
    requestData1 now1 iso1 requestData2 now2 iso2 file :
  now1 ≠ now2 →
  let file' :=
    (create requestData2 now2 iso2 (create requestData1 now1 iso1 file).2).2 in
  ∃ record1 record2,
    file' !! pretty now1 = Some record1
    ∧ file' !! pretty now2 = Some record2
    ∧ fields record1 = body_fields requestData1
    ∧ fields record2 = body_fields requestData2
    ∧ participants record1 = [creator_participant requestData1]
    ∧ participants record2 = [creator_participant requestData2].
Proof.
  intros Hne file'. subst file'.
  unfold create, saveClassRequests, loadClassRequests. cbn [snd].
  eexists _, _. split.
  { rewrite lookup_insert_ne; [apply lookup_insert_eq|].
    intros Heq. apply (inj pretty) in Heq. done. }
  split; [apply lookup_insert_eq | done].
Qed.

Lemma create_distinct_clocks_both_stored_witness :
  let file' :=
    (create Sample.carol_request (Sample.t0 + 1) Sample.iso0
       (create Sample.bob_request Sample.t0 Sample.iso0 ∅).2).2 in
  ∃ record1 record2,
    file' !! pretty Sample.t0 = Some record1
    ∧ file' !! pretty (Sample.t0 + 1)%Z = Some record2
    ∧ fields record1 = body_fields Sample.bob_request
    ∧ fields record2 = body_fields Sample.carol_request
    ∧ participants record1 = [creator_participant Sample.bob_request]
    ∧ participants record2 = [creator_participant Sample.carol_request].
Proof.
  apply (create_distinct_clocks_both_stored
           Sample.bob_request Sample.t0 Sample.iso0
           Sample.carol_request (Sample.t0 + 1)%Z Sample.iso0 ∅).
  vm_compute. discriminate.
Defined.

(** *** Join *)



(** X11: A student that has joined cannot join again: after a join that
    succeeded, the same request (its student id not being an array or an
    object) is answered with status 400 and changes nothing. *)
Theorem join_twice_conflict key participantData file record' file' :
  strict_eq (participantData !! "studentId") (participantData !! "studentId")
  = true →
  join key participantData file = (Ok200 record', file') →
  join key participantData file' = (BadRequest400, file').
Proof.
  intros Hsid Hjoin.
  unfold join, saveClassRequests, loadClassRequests, js_get in Hjoin.
  destruct (file !! key) as [record|] eqn:Hkey; [|by case_bool_decide].
  destruct (existsb _ _) eqn:Hjoined; [done|].
  injection Hjoin as <- <-.
  unfold join, loadClassRequests.
  rewrite (js_get_Own _ _ _ (lookup_insert_eq _ _ _)).
  cbn [push_participant participants]. rewrite existsb_app. cbn [existsb].
  unfold same_student at 2. by rewrite Hsid, orb_true_r.
Qed.

Lemma join_twice_conflict_witness :
  join "1700000000000" Sample.dave {[ "1700000000000" := Sample.bob_record ]}
  = (BadRequest400, {[ "1700000000000" := Sample.bob_record ]}).
Proof.
  apply (join_twice_conflict "1700000000000" Sample.dave
           (create Sample.bob_request Sample.t0 Sample.iso0 ∅).2
           Sample.bob_record).
  - vm_compute. reflexivity.
  - vm_compute. reflexivity.
Defined.

Lemma create_then_join_creator_witness :
  let created := (create Sample.bob_request Sample.t0 Sample.iso0 ∅).2 in
  join (pretty Sample.t0) {[ "studentId" := JStr "s1" ]} created
  = (BadRequest400, created).
Proof.
  apply (create_then_join_creator Sample.bob_request Sample.t0 Sample.iso0 ∅
           {[ "studentId" := JStr "s1" ]}).
  vm_compute. reflexivity.
Defined.

(** *** Delete *)

(** X13: Creating a request under an id that was free and deleting it as its
    creator gives back the table there was. *)
Theorem create_then_delete_by_creator requestData now iso creator file :
  file !! pretty now = None →
  strict_eq (requestData !! "creatorName") creator = true →
  delete_request (pretty now) creator (create requestData now iso file).2
  = (Ok200 (), file).
Proof.
  intros Hfree Hcreator.
  unfold create, delete_request, saveClassRequests, loadClassRequests. cbn [snd].
  rewrite (js_get_Own _ _ _ (lookup_insert_eq _ _ _)). cbn [fields].
  unfold strict_neq. rewrite body_fields_creatorName, Hcreator. cbn [negb].
  by rewrite delete_insert_eq, delete_id.
Qed.

Lemma create_then_delete_by_creator_witness :
  delete_request (pretty Sample.t0) (Some (JStr "bob"))
    (create Sample.bob_request Sample.t0 Sample.iso0 ∅).2
  = (Ok200 (), ∅).
Proof.
  apply (create_then_delete_by_creator Sample.bob_request Sample.t0
           Sample.iso0 (Some (JStr "bob")) ∅).
  - apply lookup_empty.
  - vm_compute. reflexivity.
Defined.

(** *** The list of a room *)

(** X14: The list of a room holds exactly the stored requests whose [room] is
    that string. *)
Theorem listByRoom_spec room file record :
  record ∈ listByRoom room file
  ↔ (∃ key, file !! key = Some record)
    ∧ fields record !! "room" = Some (JStr room).
Proof.
  unfold listByRoom, loadClassRequests.
  rewrite list_elem_of_In, filter_In, <- list_elem_of_In, strict_eq_str.
  rewrite list_elem_of_fmap. split.
  - intros [([key r] & -> & Hin) Hroom]. split; [|done].
    exists key. by apply elem_of_map_to_list.
  - intros [[key Hkey] Hroom]. split; [|done].
    exists (key, record). split; [done|]. by apply elem_of_map_to_list.
Qed.

(** X15: A request that someone other than its creator tries to delete is
    refused with status 403, the table is left as it was, and the request
    is still in the list of its room. *)
Theorem delete_by_other_keeps_listed requestData now iso creator room file :
  requestData !! "room" = Some (JStr room) →
  strict_eq (requestData !! "creatorName") creator = false →
  let created := (create requestData now iso file).2 in
  delete_request (pretty now) creator created = (Forbidden403, created)
  ∧ ∃ record,
      record ∈ listByRoom room created
      ∧ id record = pretty now
      ∧ fields record !! "creatorName" = requestData !! "creatorName".
Proof.
  intros Hroom Hcreator created. subst created.
  unfold create, delete_request, saveClassRequests, loadClassRequests. cbn [snd].
  rewrite (js_get_Own _ _ _ (lookup_insert_eq _ _ _)). cbn [fields].
  unfold strict_neq. rewrite body_fields_creatorName, Hcreator. cbn [negb].
  split; [done|]. eexists. split.
  { apply listByRoom_spec. split.
    - eexists. apply lookup_insert_eq.
    - cbn [fields]. by rewrite body_fields_room. }
  split; [done|]. cbn [fields]. apply body_fields_creatorName.
Qed.

Lemma delete_by_other_keeps_listed_witness :
  let created := (create Sample.bob_request Sample.t0 Sample.iso0 ∅).2 in
  delete_request (pretty Sample.t0) (Some (JStr "carol")) created
  = (Forbidden403, created)
  ∧ ∃ record,
      record ∈ listByRoom "A" created
      ∧ id record = pretty Sample.t0
      ∧ fields record !! "creatorName" = Sample.bob_request !! "creatorName".
Proof.
  apply (delete_by_other_keeps_listed Sample.bob_request Sample.t0 Sample.iso0
           (Some (JStr "carol")) "A" ∅).
  - vm_compute. reflexivity.
  - vm_compute. reflexivity.
Defined.

(** X16: On a table the handlers built, a request that was deleted is gone:
    joining it, deleting it again and asking for its participants are
    answered with status 404. *)
Theorem deleted_request_is_gone ops key creator record file' :
  run ops ∅ !! key = Some record →
  delete_request key creator (run ops ∅) = (Ok200 (), file') →
  file' = delete key (run ops ∅)
  ∧ (∀ participantData,
       join key participantData file' = (NotFound404, file'))
  ∧ (∀ creator', delete_request key creator' file' = (NotFound404, file'))
  ∧ participantsOf key file' = NotFound404.
Proof.
  intros Hkey Hdel.
  assert (Hown : key ∉ object_prototype_keys).
  { apply numeral_not_inherited.
    by apply (run_keys_numeral ops ∅ (map_Forall_empty _) key record). }
  unfold delete_request, saveClassRequests, loadClassRequests in Hdel.
  rewrite (js_get_Own _ _ _ Hkey) in Hdel.
  destruct (strict_neq _ _); [done|]. injection Hdel as <-.
  assert (Hgone : js_get (delete key (run ops ∅)) key = Undefined).
  { apply js_get_Undefined; [apply lookup_delete_eq | done]. }
  split; [done|]. split; [|split].
  - intros participantData. unfold join, loadClassRequests. by rewrite Hgone.
  - intros creator'. unfold delete_request, loadClassRequests. by rewrite Hgone.
  - unfold participantsOf, loadClassRequests. by rewrite Hgone.
Qed.

Lemma deleted_request_is_gone_witness :
  join "1700000000000" Sample.dave ∅ = (NotFound404, ∅).
Proof.
  apply (deleted_request_is_gone Sample.bob_then_dave "1700000000000"
           (Some (JStr "bob")) Sample.bob_record ∅).
  - vm_compute. reflexivity.
  - vm_compute. reflexivity.
Defined.

(** *** Ids that are not stored *)

(** X17: An id of the form the server assigns, a decimal numeral, that is not
    stored is answered with status 404 by every handler that takes an id,
    and nothing is changed. *)
Theorem numeral_id_not_stored_404 (n : Z) participantData creator file :
  file !! pretty n = None →
  join (pretty n) participantData file = (NotFound404, file)
  ∧ delete_request (pretty n) creator file = (NotFound404, file)
  ∧ participantsOf (pretty n) file = NotFound404.
Proof.
  intros Hnone.
  assert (Hget : js_get file (pretty n) = Undefined)
    by (apply js_get_Undefined; [done | apply pretty_not_inherited]).
  unfold join, delete_request, participantsOf, loadClassRequests.
  by rewrite Hget.
Qed.

Lemma numeral_id_not_stored_404_witness :
  join (pretty 42%Z) Sample.dave ∅ = (NotFound404, ∅)
  ∧ delete_request (pretty 42%Z) (Some (JStr "bob")) ∅ = (NotFound404, ∅)
  ∧ participantsOf (pretty 42%Z) ∅ = NotFound404.
Proof.
  apply (numeral_id_not_stored_404 42 Sample.dave (Some (JStr "bob")) ∅).
  apply lookup_empty.
Defined.

(** X18: On every table the handlers built, an id that names an inherited
    property is never stored and is never answered with status 404:
    joining it throws (status 500), deleting it is refused (403) when a
    creator is named and reported as done (200) when none is, asking for
    its participants gives status 200 without a body; the table is left
    as it was. *)
Theorem inherited_id_answers ops key participantData creator :
  key ∈ object_prototype_keys →
  let file := run ops ∅ in
  file !! key = None
  ∧ join key participantData file = (ServerError500, file)
  ∧ delete_request key (Some creator) file = (Forbidden403, file)
  ∧ delete_request key None file = (Ok200 (), file)
  ∧ participantsOf key file = Ok200 None.
Proof.
  intros Hkey file. subst file.
  pose proof (reachable_inherited_absent ops key Hkey) as Hnone.
  assert (Hget : js_get (run ops ∅) key = Inherited)
    by (by apply js_get_Inherited).
  unfold join, delete_request, participantsOf, loadClassRequests.
  by rewrite Hget.
Qed.

Lemma inherited_id_answers_witness :
  let file := run Sample.bob_then_dave ∅ in
  file !! "valueOf" = None
  ∧ join "valueOf" Sample.dave file = (ServerError500, file)
  ∧ delete_request "valueOf" (Some (JStr "bob")) file = (Forbidden403, file)
  ∧ delete_request "valueOf" None file = (Ok200 (), file)
  ∧ participantsOf "valueOf" file = Ok200 None.
Proof.
  apply (inherited_id_answers Sample.bob_then_dave "valueOf" Sample.dave
           (JStr "bob")).
  apply inherited_key. vm_compute. reflexivity.
Defined.

End RequestMore.

(** ** The registry of live sockets *)

Section RegistryMore.
Import Registry.

Implicit Types (st : registry) (sid room : string).

Lemma js_get_cases {A} (obj : gmap string A) key :
  (∃ a, obj !! key = Some a ∧ js_get obj key = Own a)
  ∨ (obj !! key = None ∧ key ∈ object_prototype_keys
     ∧ js_get obj key = Inherited)
  ∨ (obj !! key = None ∧ (key ∉ object_prototype_keys)
     ∧ js_get obj key = Undefined).
Proof.
  unfold js_get. destruct (obj !! key) as [a|]; [left; eauto|].
  case_bool_decide; [right; left | right; right]; done.
Qed.

Lemma members_insert_eq (rooms : gmap string (gset string)) room s :
  members (<[room := s]> rooms) room = s.
Proof. unfold members. by rewrite lookup_insert_eq. Qed.

Lemma members_insert_ne (rooms : gmap string (gset string)) room room' s :
  room ≠ room' → members (<[room := s]> rooms) room' = members rooms room'.
Proof. intros. unfold members. by rewrite lookup_insert_ne. Qed.

Lemma members_delete_eq (rooms : gmap string (gset string)) room :
  members (delete room rooms) room = ∅.
Proof. unfold members. by rewrite lookup_delete_eq. Qed.

Lemma members_delete_ne (rooms : gmap string (gset string)) room room' :
  room ≠ room' → members (delete room rooms) room' = members rooms room'.
Proof. intros. unfold members. by rewrite lookup_delete_ne. Qed.

Lemma join_room_other_rooms_witness :
  members (activeRooms (state_of (join_room "s1" "B"
             (state_of (join_room "s2" "A" empty))))) "A"
  = members (activeRooms (state_of (join_room "s2" "A" empty))) "A"
  ∧ members (adapter (state_of (join_room "s1" "B"
               (state_of (join_room "s2" "A" empty))))) "A"
    = members (adapter (state_of (join_room "s2" "A" empty))) "A".
Proof.
  apply (join_room_other_rooms "s1" "B" (state_of (join_room "s2" "A" empty)) "A").
  discriminate.
Defined.

(** X20: Joining the room a socket is already in changes nothing. *)
Theorem join_room_idempotent sid room st st' :
  join_room sid room st = Returned st' →
  join_room sid room st' = Returned st'.
Proof.
  intros Hjoin. unfold join_room in Hjoin.
  assert (∃ s, st' = {| activeRooms := <[room := {[sid]} ∪ s]> (activeRooms st);
                        currentRoom := <[sid := room]> (currentRoom st);
                        adapter := <[room := {[sid]} ∪ members (adapter st) room]>
                                     (adapter st) |}) as [s ->].
  { destruct (js_get (activeRooms st) room) as [s| |]; [| done |].
    - exists s. by injection Hjoin as <-.
    - exists ∅. injection Hjoin as <-. by rewrite union_empty_r_L. }
  unfold join_room. cbn [activeRooms currentRoom adapter].
  rewrite (js_get_Own _ _ _ (lookup_insert_eq _ _ _)).
  rewrite members_insert_eq, !insert_insert_eq.
  do 2 f_equal; f_equal; set_solver.
Qed.

Lemma join_room_idempotent_witness :
  join_room "s1" "A" (state_of (join_room "s1" "A" empty))
  = Returned (state_of (join_room "s1" "A" empty)).
Proof.
  apply (join_room_idempotent "s1" "A" empty). vm_compute. reflexivity.
Defined.

(** X21: A socket that joins a room it was not in and then disconnects leaves
    every room with the members it had, and has no current room. *)
Theorem join_then_disconnect_restores sid room st st1 :
  room ≠ "" →
  sid ∉ members (activeRooms st) room →
  join_room sid room st = Returned st1 →
  ∃ st2,
    disconnect sid st1 = Returned st2
    ∧ (∀ room', members (activeRooms st2) room' = members (activeRooms st) room')
    ∧ currentRoom st2 !! sid = None.
Proof.
  intros Hroom Hsid Hjoin. unfold join_room in Hjoin.
  assert (Htruthy : truthy room = true).
  { unfold truthy. by rewrite bool_decide_eq_false_2. }
  destruct (js_get_cases (activeRooms st) room)
    as [(s & Hs & Hget) | [(Hnone & _ & Hget) | (Hnone & _ & Hget)]];
    rewrite Hget in Hjoin; [| done |]; injection Hjoin as <-;
    unfold disconnect; cbn [activeRooms currentRoom adapter];
    rewrite lookup_insert_eq, Htruthy,
      (js_get_Own _ _ _ (lookup_insert_eq _ _ _)).
  - assert (Hs' : members (activeRooms st) room = s)
      by (unfold members; by rewrite Hs).
    rewrite Hs' in Hsid.
    assert (Hdiff : ({[sid]} ∪ s) ∖ {[sid]} = s) by set_solver.
    rewrite Hdiff.
    destruct (Nat.eqb_spec (size s) 0) as [Hsize | Hsize];
      eexists; (split; [done|]); cbn [activeRooms currentRoom];
      (split; [|apply lookup_delete_eq]); intros room';
      destruct (decide (room = room')) as [<-|Hne].
    + rewrite delete_insert_eq, members_delete_eq, Hs'.
      symmetry. by apply size_empty_inv, leibniz_equiv in Hsize.
    + by rewrite delete_insert_eq, members_delete_ne.
    + by rewrite insert_insert_eq, members_insert_eq.
    + by rewrite insert_insert_eq, members_insert_ne.
  - assert (Hdiff : ({[sid]} : gset string) ∖ {[sid]} = ∅) by set_solver.
    rewrite Hdiff, size_empty. cbn [Nat.eqb].
    eexists; (split; [done|]); cbn [activeRooms currentRoom];
      (split; [|apply lookup_delete_eq]); intros room'.
    rewrite delete_insert_eq. destruct (decide (room = room')) as [<-|Hne].
    + rewrite members_delete_eq. unfold members. by rewrite Hnone.
    + by rewrite members_delete_ne.
Qed.

Lemma join_then_disconnect_restores_witness :
  ∃ st2,
    disconnect "s1" (state_of (join_room "s1" "A" empty)) = Returned st2
    ∧ (∀ room', members (activeRooms st2) room'
                = members (activeRooms empty) room')
    ∧ currentRoom st2 !! "s1" = None.
Proof.
  apply (join_then_disconnect_restores "s1" "A" empty).
  - discriminate.
  - vm_compute. set_solver.
  - vm_compute. reflexivity.
Defined.

(** X22: A disconnect takes no other socket out of any room. *)
Theorem disconnect_keeps_others sid other room st :
  other ≠ sid →
  other ∈ members (activeRooms st) room →
  other ∈ members (activeRooms (state_of (disconnect sid st))) room.
Proof.
  intros Hother Hin. unfold disconnect.
  destruct (currentRoom st !! sid) as [room0|]; [|done].
  destruct (truthy room0); [|done].
  destruct (js_get_cases (activeRooms st) room0)
    as [(s & Hs & ->) | [(_ & _ & ->) | (_ & _ & ->)]]; [| done | done].
  assert (Hs' : members (activeRooms st) room0 = s)
    by (unfold members; by rewrite Hs).
  destruct (decide (room0 = room)) as [->|Hne].
  - rewrite Hs' in Hin.
    assert (Hkept : other ∈ s ∖ {[sid]}) by set_solver.
    destruct (Nat.eqb_spec (size (s ∖ {[sid]})) 0) as [Hsize|_];
      cbn [state_of activeRooms].
    + apply size_empty_inv in Hsize. set_solver.
    + by rewrite members_insert_eq.
  - destruct (size (s ∖ {[sid]}) =? 0); cbn [state_of activeRooms].
    + by rewrite members_delete_ne.
    + by rewrite members_insert_ne.
Qed.

Lemma disconnect_keeps_others_witness :
  "s2" ∈ members (activeRooms (state_of (disconnect "s1"
           (state_of (join_room "s2" "A"
              (state_of (join_room "s1" "A" empty))))))) "A".
Proof.
  apply (disconnect_keeps_others "s1" "s2" "A").
  - discriminate.
  - vm_compute. set_solver.
Defined.

(** *** What every run keeps *)

Lemma join_room_kept_well sid room st :
  kept_well st → kept_well (state_of (join_room sid room st)).
Proof.
  intros [Hrooms Hcurrent]. unfold join_room.
  destruct (js_get_cases (activeRooms st) room)
    as [(s & Hs & ->) | [(Hnone & Hkey & ->) | (Hnone & Hkey & ->)]];
    cbn [state_of]; split; cbn [activeRooms currentRoom].
  - intros room' s' Hlook. apply lookup_insert_Some in Hlook as [[<- <-]|[_ Hlook]].
    + split; [set_solver | by apply (Hrooms room s)].
    + by apply (Hrooms room' s').
  - intros sid' room' Hlook Hown.
    apply lookup_insert_Some in Hlook as [[<- <-]|[_ Hlook]].
    + rewrite members_insert_eq. set_solver.
    + specialize (Hcurrent sid' room' Hlook Hown).
      destruct (decide (room = room')) as [<-|Hne].
      * rewrite members_insert_eq. unfold members in Hcurrent.
        rewrite Hs in Hcurrent. set_solver.
      * by rewrite members_insert_ne.
  - done.
  - intros sid' room' Hlook Hown.
    apply lookup_insert_Some in Hlook as [[<- <-]|[_ Hlook]]; [done|].
    by apply Hcurrent.
  - intros room' s' Hlook. apply lookup_insert_Some in Hlook as [[<- <-]|[_ Hlook]].
    + split; [set_solver | done].
    + by apply (Hrooms room' s').
  - intros sid' room' Hlook Hown.
    apply lookup_insert_Some in Hlook as [[<- <-]|[_ Hlook]].
    + rewrite members_insert_eq. set_solver.
    + specialize (Hcurrent sid' room' Hlook Hown).
      destruct (decide (room = room')) as [<-|Hne].
      * unfold members in Hcurrent. rewrite Hnone in Hcurrent. set_solver.
      * by rewrite members_insert_ne.
Qed.

Lemma disconnect_kept_well sid st :
  kept_well st → kept_well (state_of (disconnect sid st)).
Proof.
  intros [Hrooms Hcurrent].
  assert (Hbase : ∀ rooms,
    rooms = activeRooms st →
    kept_well {| activeRooms := rooms; currentRoom := delete sid (currentRoom st);
                 adapter := (λ s : gset string, s ∖ {[sid]}) <$> adapter st |}).
  { intros rooms ->. split; cbn [activeRooms currentRoom]; [done|].
    intros sid' room' Hlook Hown. apply lookup_delete_Some in Hlook as [_ Hlook].
    by apply Hcurrent. }
  unfold disconnect.
  destruct (currentRoom st !! sid) as [room0|] eqn:Hroom0; [|by apply Hbase].
  destruct (truthy room0); [|by apply Hbase].
  destruct (js_get_cases (activeRooms st) room0)
    as [(s & Hs & ->) | [(_ & _ & ->) | (_ & _ & ->)]];
    [| by apply Hbase | by apply Hbase].
  assert (Hs' : members (activeRooms st) room0 = s)
    by (unfold members; by rewrite Hs).
  destruct (Nat.eqb_spec (size (s ∖ {[sid]})) 0) as [Hsize|Hsize];
    cbn [state_of]; split; cbn [activeRooms currentRoom].
  - intros room' s' Hlook. apply lookup_delete_Some in Hlook as [_ Hlook].
    by apply (Hrooms room' s').
  - intros sid' room' Hlook Hown.
    apply lookup_delete_Some in Hlook as [Hne Hlook].
    specialize (Hcurrent sid' room' Hlook Hown).
    destruct (decide (room0 = room')) as [<-|Hne'].
    + apply size_empty_inv in Hsize. rewrite Hs' in Hcurrent. set_solver.
    + by rewrite members_delete_ne.
  - intros room' s' Hlook.
    apply lookup_insert_Some in Hlook as [[<- <-]|[_ Hlook]].
    + split; [|by apply (Hrooms room0 s)].
      intros Hempty. apply Hsize. rewrite Hempty. apply size_empty.
    + by apply (Hrooms room' s').
  - intros sid' room' Hlook Hown.
    apply lookup_delete_Some in Hlook as [Hne Hlook].
    specialize (Hcurrent sid' room' Hlook Hown).
    destruct (decide (room0 = room')) as [<-|Hne'].
    + rewrite members_insert_eq. rewrite Hs' in Hcurrent. set_solver.
    + by rewrite members_insert_ne.
Qed.

Lemma run_kept_well events st :
  kept_well st → kept_well (state_of (run events st)).
Proof.
  revert st. induction events as [|e events IH]; intros st Hst; [done|].
  cbn [run].
  assert (He : kept_well (state_of (handle e st))).
  { destruct e; cbn [handle];
      [by apply join_room_kept_well | by apply disconnect_kept_well]. }
  destruct (handle e st); cbn [state_of] in He; [by apply IH | done].
Qed.

Lemma empty_kept_well : kept_well empty.
Proof. split; intros ? ? Hlook; cbn in Hlook; by rewrite lookup_empty in Hlook. Qed.

(** X23: Whatever sockets join and disconnect, no room is kept without a
    member: the room that loses its last counted member is dropped. *)
Theorem no_empty_room_kept events room s :
  activeRooms (state_of (run events empty)) !! room = Some s → s ≠ ∅.
Proof.
  intros Hroom.
  destruct (run_kept_well events empty empty_kept_well) as [Hrooms _].
  by destruct (Hrooms room s Hroom).
Qed.

Lemma no_empty_room_kept_witness :
  activeRooms (state_of
    (run [JoinRoom "s1" "A"; JoinRoom "s2" "A"; Disconnect "s1"] empty)) !! "A"
  = Some {[ "s2" ]}
  ∧ ({[ "s2" ]} : gset string) ≠ ∅.
Proof.
  assert (Hroom : activeRooms (state_of
            (run [JoinRoom "s1" "A"; JoinRoom "s2" "A"; Disconnect "s1"] empty))
            !! "A" = Some {[ "s2" ]}) by (vm_compute; reflexivity).
  split; [exact Hroom|]. exact (no_empty_room_kept _ _ _ Hroom).
Defined.

(** X24: Whatever sockets join and disconnect, a socket is counted in its
    current room, unless the room is named like an inherited property. *)
Theorem current_room_member events sid room :
  let st := state_of (run events empty) in
  currentRoom st !! sid = Some room →
  room ∉ object_prototype_keys →
  sid ∈ members (activeRooms st) room.
Proof.
  intros st Hcurrent Hown. subst st.
  destruct (run_kept_well events empty empty_kept_well) as [_ Hmember].
  by apply Hmember.
Qed.

Lemma current_room_member_witness :
  "s1" ∈ members (activeRooms (state_of
           (run [JoinRoom "s1" "A"; JoinRoom "s2" "A"; JoinRoom "s1" "B"] empty)))
         "B".
Proof.
  apply (current_room_member
           [JoinRoom "s1" "A"; JoinRoom "s2" "A"; JoinRoom "s1" "B"] "s1" "B").
  - vm_compute. reflexivity.
  - apply own_key. vm_compute. reflexivity.
Defined.

(** X25: Joining a room named like an inherited property throws, in whatever
    state the sockets left the registry, and counts the socket nowhere;
    the socket is in the broadcast room all the same, and the room is its
    current room. *)
Theorem join_inherited_room_throws events st sid room :
  run events empty = Returned st →
  room ∈ object_prototype_keys →
  ∃ st',
    join_room sid room st = Threw st'
    ∧ activeRooms st' = activeRooms st
    ∧ currentRoom st' !! sid = Some room
    ∧ sid ∈ members (adapter st') room.
Proof.
  intros Hrun Hkey.
  destruct (run_kept_well events empty empty_kept_well) as [Hrooms _].
  rewrite Hrun in Hrooms. cbn [state_of] in Hrooms.
  unfold join_room.
  destruct (js_get_cases (activeRooms st) room)
    as [(s & Hs & _) | [(_ & _ & ->) | (_ & Hown & _)]]; [| | done].
  { by destruct (Hrooms room s Hs). }
  eexists. split; [done|]. cbn [activeRooms currentRoom adapter].
  split; [done|]. split; [apply lookup_insert_eq|].
  rewrite members_insert_eq. set_solver.
Qed.

Lemma join_inherited_room_throws_witness :
  ∃ st',
    join_room "s2" "constructor" (state_of (join_room "s1" "A" empty)) = Threw st'
    ∧ activeRooms st' = activeRooms (state_of (join_room "s1" "A" empty))
    ∧ currentRoom st' !! "s2" = Some "constructor"
    ∧ "s2" ∈ members (adapter st') "constructor".
Proof.
  apply (join_inherited_room_throws [JoinRoom "s1" "A"]).
  - vm_compute. reflexivity.
  - apply inherited_key. vm_compute. reflexivity.
Defined.

(** X26: A socket that joined the room with the empty name is never taken out
    of it: the empty string is falsy, and the disconnect handler takes it
    for no room at all. *)
Theorem empty_room_name_never_left sid st :
  ∃ st1 st2,
    join_room sid "" st = Returned st1
    ∧ disconnect sid st1 = Returned st2
    ∧ activeRooms st2 = activeRooms st1
    ∧ sid ∈ members (activeRooms st2) "".
Proof.
  unfold join_room.
  destruct (js_get_cases (activeRooms st) "")
    as [(s & Hs & ->) | [(_ & Hkey & _) | (_ & _ & ->)]].
  - eexists _, _. split; [done|]. unfold disconnect.
    cbn [activeRooms currentRoom adapter]. rewrite lookup_insert_eq.
    cbn [truthy]. split; [done|]. split; [done|].
    cbn [activeRooms]. rewrite members_insert_eq. set_solver.
  - exfalso. revert Hkey. apply own_key. vm_compute. reflexivity.
  - eexists _, _. split; [done|]. unfold disconnect.
    cbn [activeRooms currentRoom adapter]. rewrite lookup_insert_eq.
    cbn [truthy]. split; [done|]. split; [done|].
    cbn [activeRooms]. rewrite members_insert_eq. set_solver.
Qed.

End RegistryMore.

Example message_id_sample :
  Chat.message_id 1700000000000%Z "0.4fzyo82mvyr" = "17000000000004fzyo".
Proof. vm_compute. reflexivity. Qed.
